(** * xata_loaddata.py: a bulk loader of student records

    A shallow embedding of the script [xata_loaddata.py] and of the parts of
    pandas, of Python's csv writer and of PostgreSQL it calls, followed by
    the properties of the load that the specification states.

    The script is a straight line of stages:
    read, validate, clean, deduplicate, connect, create the tables,
    COPY into [temp_students], upsert into [students], drop the staging
    table, verify the row count, close the connection.

    Conventions of the model:
    - the input is the frame [pd.read_csv] returns; its columns are text
      columns of pandas before 3.0 (object columns: a cell is a [str] or
      the float NaN, and [astype(str)] writes NaN as [nan]);
    - [to_csv] ends a record with a line feed, and the csv writer is the
      one of CPython 3.11: it quotes a field that holds the delimiter, the
      quote or a character of the line terminator, so a line feed is
      quoted and a carriage return is not;
    - the COPY is PostgreSQL's text format as its documentation describes
      it (the end-of-data marker as version 17 reads it), on a server whose
      encoding is UTF8; a character is one [ascii], and a field in which a
      backslash code made a NUL or a byte above 127 is checked as the
      server checks it, byte by byte;
    - a call to the driver that fails on its own has no effect on the
      server, and a write of [failed_rows.csv] that raises leaves the file
      as it was;
    - an exception that nothing catches ends the process with status 1. *)

From Stdlib Require Import Ascii String.
From stdpp Require Import base decidable option list sets strings.

Set Default Proof Using "Type".

(** ** Python strings *)

(** A Python [str] is a sequence of characters.  A character of the model is
    a Stdlib [ascii]; the script never looks at the width of a character,
    only at its identity and at the length of a string. *)
Abbreviation pystr := (list ascii).

(** The literal of a Python string. *)
Definition py (s : string) : pystr := list_ascii_of_string s.

Definition comma : ascii := ascii_of_nat 44.
Definition dquote : ascii := ascii_of_nat 34.
Definition backslash : ascii := ascii_of_nat 92.
Definition LF : ascii := ascii_of_nat 10.
Definition CR : ascii := ascii_of_nat 13.
Definition NUL : ascii := ascii_of_nat 0.
Definition period : ascii := ascii_of_nat 46.
Definition space : ascii := ascii_of_nat 32.

(** [s.replace(pat, repl)] for a pattern of one character. *)
Definition py_replace (pat : ascii) (repl : pystr) (s : pystr) : pystr :=
  s ≫= λ c, if decide (c = pat) then repl else [c].

(** [s[:n]] *)
Definition py_slice_to (n : nat) (s : pystr) : pystr := take n s.

(** ** pandas: cells, Series and DataFrames *)

(** A cell of a column read by [pd.read_csv] as text: a string, or the
    missing value [NaN] that [read_csv] puts where a field is empty. *)
Inductive cell :=
  | Str (s : pystr)
  | NaN.

#[global] Instance cell_eq_dec : EqDecision cell.
Proof. solve_decision. Defined.

#[global] Instance cell_inhabited : Inhabited cell := populate NaN.

Abbreviation Series := (list cell).

Definition isna (c : cell) : bool :=
  match c with NaN => true | Str _ => false end.

(** [Series.astype(str)] applies Python's [str] to every element of an
    object column; [str(float('nan'))] is the three letters [nan]. *)
Definition astype_str (s : Series) : Series :=
  (λ c, match c with Str t => Str t | NaN => Str (py "nan") end) <$> s.

(** [Series.str.replace(pat, repl)]: missing values stay missing. *)
Definition str_replace (pat : ascii) (repl : pystr) (s : Series) : Series :=
  (λ c, match c with Str t => Str (py_replace pat repl t) | NaN => NaN end) <$> s.

(** [Series.str[:n]]: missing values stay missing. *)
Definition str_slice_to (n : nat) (s : Series) : Series :=
  (λ c, match c with Str t => Str (py_slice_to n t) | NaN => NaN end) <$> s.

(** A DataFrame with the default integer index: the column labels and the
    rows, each row holding one cell per column, in column order. *)
Record DataFrame := mkDataFrame {
  columns : list pystr;
  rows : list (list cell)
}.

(** A frame as [read_csv] builds it: the labels are distinct (pandas renames
    repeated header names) and every row has one cell per column. *)
Definition wf_frame (df : DataFrame) : Prop :=
  NoDup (columns df) ∧ Forall (λ r, length r = length (columns df)) (rows df).

(** Position of a label among the columns. *)
Fixpoint col_index (c : pystr) (cols : list pystr) : option nat :=
  match cols with
  | [] => None
  | c' :: cols' => if decide (c' = c) then Some 0 else S <$> col_index c cols'
  end.

(** The cell of a row under a label; [NaN] stands for a cell that is not
    there (it does not happen in a well-formed frame). *)
Definition row_get (cols : list pystr) (c : pystr) (r : list cell) : cell :=
  match col_index c cols with
  | Some i => default NaN (r !! i)
  | None => NaN
  end.

(** [len(df)] *)
Definition len (df : DataFrame) : nat := length (rows df).

(** [df[c]]: the column as a Series. *)
Definition getitem (df : DataFrame) (c : pystr) : Series :=
  row_get (columns df) c <$> rows df.

(** [df[c] = s]: replaces the column where the label exists, appends a new
    column otherwise.  The Series has the frame's index, so the assignment
    is positional. *)
Definition setitem (df : DataFrame) (c : pystr) (s : Series) : DataFrame :=
  match col_index c (columns df) with
  | Some i =>
      {| columns := columns df;
         rows := zip_with (λ r v, <[i := v]> r) (rows df) s |}
  | None =>
      {| columns := columns df ++ [c];
         rows := zip_with (λ r v, r ++ [v]) (rows df) s |}
  end.

(** [df[cols]]: the listed columns, in the listed order. *)
Definition select (df : DataFrame) (cols : list pystr) : DataFrame :=
  {| columns := cols;
     rows := (λ r, (λ c, row_get (columns df) c r) <$> cols) <$> rows df |}.

(** [df.dropna(subset=cols)]: drops the rows with a missing value under one
    of the labels. *)
Definition dropna (subset : list pystr) (df : DataFrame) : DataFrame :=
  {| columns := columns df;
     rows := filter (λ r, Forall (λ c, isna (row_get (columns df) c r) = false) subset)
                    (rows df) |}.

(** [Series.duplicated()] with [keep='first']: marks every value that
    occurred earlier in the Series. *)
Fixpoint duplicated_from (seen : list cell) (s : Series) : list bool :=
  match s with
  | [] => []
  | v :: s' => bool_decide (v ∈ seen) :: duplicated_from (v :: seen) s'
  end.

Definition duplicated (s : Series) : list bool := duplicated_from [] s.

(** Rows picked by a boolean mask. *)
Fixpoint mask_rows {A} (m : list bool) (l : list A) : list A :=
  match m, l with
  | b :: m', x :: l' => if b then x :: mask_rows m' l' else mask_rows m' l'
  | _, _ => []
  end.

(** [df[mask]] *)
Definition getitem_mask (df : DataFrame) (m : list bool) : DataFrame :=
  {| columns := columns df; rows := mask_rows m (rows df) |}.

(** [df.drop_duplicates(subset=[c], keep='first')]: pandas computes it as
    [df[~df.duplicated(subset)]]. *)
Definition drop_duplicates (c : pystr) (df : DataFrame) : DataFrame :=
  getitem_mask df (negb <$> duplicated (getitem df c)).

(** [df.empty] *)
Definition empty (df : DataFrame) : bool :=
  bool_decide (rows df = []) || bool_decide (columns df = []).

(** ** Python's csv writer, as [DataFrame.to_csv] drives it *)

(** Under [QUOTE_MINIMAL] a field is quoted when it holds the delimiter,
    the quote character or a character of the line terminator, which is
    the line feed alone: a carriage return is written as it is. *)
Definition needs_quote (f : pystr) : bool :=
  bool_decide (Exists (λ c, c ∈ [comma; dquote; LF]) f).

(** A quoted field doubles the quote characters it holds
    ([doublequote=True]). *)
Definition csv_field (f : pystr) : pystr :=
  if needs_quote f
  then dquote :: py_replace dquote [dquote; dquote] f ++ [dquote]
  else f.

(** [sep.join(fields)] *)
Fixpoint join (sep : ascii) (fields : list pystr) : pystr :=
  match fields with
  | [] => []
  | [f] => f
  | f :: fields' => f ++ sep :: join sep fields'
  end.

(** [writer.writerow(fields)]: the record ends with the line terminator
    (a line feed); a record made of one empty field is written as a pair of
    quotes. *)
Definition writerow (fields : list pystr) : pystr :=
  (if decide (fields = [[]]) then [dquote; dquote]
   else join comma (csv_field <$> fields)) ++ [LF].

(** The text of a cell: a missing value is written as [na_rep], the empty
    string. *)
Definition cell_text (c : cell) : pystr :=
  match c with Str s => s | NaN => [] end.

(** [df.to_csv(f, index=False, header=header, sep=',',
    quoting=csv.QUOTE_MINIMAL)]: the text written to [f]. *)
Definition to_csv (header : bool) (df : DataFrame) : pystr :=
  (if header then writerow (columns df) else [])
  ++ mjoin ((λ r, writerow (cell_text <$> r)) <$> rows df).

(** ** PostgreSQL: the two tables and the statements of the script *)

(** A value of a [VARCHAR] column: [None] is SQL [NULL]. *)
Abbreviation sqlval := (option (list ascii)).

(** A row of [students] and of [temp_students]. *)
Record Student := mkStudent {
  name : sqlval;
  uni_roll : sqlval;
  branch : sqlval
}.

#[global] Instance Student_eq_dec : EqDecision Student.
Proof. solve_decision. Defined.

Abbreviation table := (list Student).

(** The database: each table is absent ([None]) or holds its rows. *)
Record Database := mkDatabase {
  students : option table;
  temp_students : option table
}.

(** *** COPY ... FROM STDIN in text format

    [cur.copy_from(buffer, 'temp_students', sep=',', columns=...)] sends the
    buffer to [COPY temp_students(name, uni_roll, branch) FROM STDIN] with
    delimiter [,] and null marker [\N].  The server cuts the data into
    lines, the lines into fields, and decodes the backslash sequences. *)

(** The newline style, fixed by the first line break of the data. *)
Inductive eol_type := EOL_UNKNOWN | EOL_NL | EOL_CR | EOL_CRNL.

(** The line break that may follow the end-of-data marker, for the style
    of the data. *)
Definition ends_marker (eol : eol_type) (c : ascii) : bool :=
  match eol with
  | EOL_UNKNOWN => bool_decide (c = LF ∨ c = CR)
  | EOL_NL => bool_decide (c = LF)
  | EOL_CR | EOL_CRNL => bool_decide (c = CR)
  end.

(** Cutting the data into lines.  A backslash takes the next character
    with it, so an escaped line break does not end the line.  A line break
    of another style than the first one, a NUL character and a misplaced
    end-of-data marker are errors ([None]).  The marker, a backslash and a
    period alone on a line, ends the data. *)
Fixpoint read_lines (eol : eol_type) (cur : pystr) (s : pystr)
  : option (list pystr) :=
  match s with
  | [] => Some (if decide (cur = []) then [] else [cur])
  | c :: s' =>
      if decide (c = NUL) then None
      else if decide (c = backslash) then
        match s' with
        | [] => Some [cur ++ [c]]
        | c2 :: s'' =>
            if decide (c2 = NUL) then None
            else if decide (c2 = period) then
              match cur, s'' with
              | [], c3 :: _ => if ends_marker eol c3 then Some [] else None
              | _, _ => None
              end
            else read_lines eol (cur ++ [c; c2]) s''
        end
      else if decide (c = CR) then
        match eol with
        | EOL_NL => None
        | EOL_CR => (cur ::.) <$> read_lines EOL_CR [] s'
        | EOL_UNKNOWN | EOL_CRNL =>
            match s' with
            | c2 :: s'' =>
                if decide (c2 = LF)
                then (cur ::.) <$> read_lines EOL_CRNL [] s''
                else match eol with
                     | EOL_CRNL => None
                     | _ => (cur ::.) <$> read_lines EOL_CR [] s'
                     end
            | [] => match eol with
                    | EOL_CRNL => None
                    | _ => Some [cur]
                    end
            end
        end
      else if decide (c = LF) then
        match eol with
        | EOL_CR | EOL_CRNL => None
        | _ => (cur ::.) <$> read_lines EOL_NL [] s'
        end
      else read_lines eol (cur ++ [c]) s'
  end.

Definition octal_digit (c : ascii) : option nat :=
  let n := nat_of_ascii c in
  if bool_decide (48 ≤ n ≤ 55) then Some (n - 48) else None.

Definition hex_digit (c : ascii) : option nat :=
  let n := nat_of_ascii c in
  if bool_decide (48 ≤ n ≤ 57) then Some (n - 48)
  else if bool_decide (97 ≤ n ≤ 102) then Some (n - 87)
  else if bool_decide (65 ≤ n ≤ 70) then Some (n - 55)
  else None.

(** The character a backslash followed by [c] stands for, when [c] is not
    the start of an octal or hexadecimal code: [\b \f \n \r \t \v] are
    control characters, any other character stands for itself. *)
Definition escaped_char (c : ascii) : ascii :=
  match nat_of_ascii c with
  | 98 => ascii_of_nat 8
  | 102 => ascii_of_nat 12
  | 110 => LF
  | 114 => CR
  | 116 => ascii_of_nat 9
  | 118 => ascii_of_nat 11
  | _ => c
  end.

(** A code that stands for NUL or for a byte above 127: the field it
    occurs in is checked against the encoding of the server. *)
Definition non_ascii (n : nat) : bool := bool_decide (n = 0 ∨ 128 ≤ n).

Definition in_range (lo hi : nat) (c : ascii) : bool :=
  bool_decide (lo ≤ nat_of_ascii c ≤ hi).

(** The check of a decoded field on a server in UTF8: no NUL, and every
    byte above 127 part of a legal sequence of two, three or four bytes
    (no overlong form, no surrogate, nothing above U+10FFFF). *)
Fixpoint verify_utf8 (s : pystr) : bool :=
  match s with
  | [] => true
  | a :: s1 =>
      let n := nat_of_ascii a in
      if bool_decide (n = 0) then false
      else if bool_decide (n < 128) then verify_utf8 s1
      else if bool_decide (194 ≤ n ≤ 223) then
        match s1 with
        | b :: s2 => in_range 128 191 b && verify_utf8 s2
        | _ => false
        end
      else if bool_decide (224 ≤ n ≤ 239) then
        match s1 with
        | b :: c :: s3 =>
            (if bool_decide (n = 224) then in_range 160 191 b
             else if bool_decide (n = 237) then in_range 128 159 b
             else in_range 128 191 b)
            && in_range 128 191 c && verify_utf8 s3
        | _ => false
        end
      else if bool_decide (240 ≤ n ≤ 244) then
        match s1 with
        | b :: c :: d :: s4 =>
            (if bool_decide (n = 240) then in_range 144 191 b
             else if bool_decide (n = 244) then in_range 128 143 b
             else in_range 128 191 b)
            && in_range 128 191 c && in_range 128 191 d && verify_utf8 s4
        | _ => false
        end
      else false
  end.

(** A field as the server reads it: its raw text, its decoded text, and
    whether a code of the field made a NUL or a byte above 127. *)
Record attribute := mkAttribute {
  raw_text : pystr;
  decoded : pystr;
  saw_non_ascii : bool
}.

(** Cutting a line into fields.  An unescaped delimiter ends the field; a
    backslash introduces an octal code of up to three digits, [x] and a
    hexadecimal code of up to two digits, or one escaped character; a
    backslash at the end of the line is dropped. *)
Fixpoint read_attributes (raw out : pystr) (saw : bool) (s : pystr)
  : list attribute :=
  match s with
  | [] => [mkAttribute raw out saw]
  | c :: s1 =>
      if decide (c = comma)
      then mkAttribute raw out saw :: read_attributes [] [] false s1
      else if decide (c = backslash) then
        match s1 with
        | [] => [mkAttribute (raw ++ [c]) out saw]
        | c2 :: s2 =>
            match octal_digit c2 with
            | Some d1 =>
                match s2 with
                | c3 :: s3 =>
                    match octal_digit c3 with
                    | Some d2 =>
                        match s3 with
                        | c4 :: s4 =>
                            match octal_digit c4 with
                            | Some d3 =>
                                let v := ((d1 * 8 + d2) * 8 + d3) `mod` 256 in
                                read_attributes (raw ++ [c; c2; c3; c4])
                                  (out ++ [ascii_of_nat v])
                                  (saw || non_ascii v) s4
                            | None =>
                                read_attributes (raw ++ [c; c2; c3])
                                  (out ++ [ascii_of_nat (d1 * 8 + d2)])
                                  (saw || non_ascii (d1 * 8 + d2)) s3
                            end
                        | [] =>
                            read_attributes (raw ++ [c; c2; c3])
                              (out ++ [ascii_of_nat (d1 * 8 + d2)])
                              (saw || non_ascii (d1 * 8 + d2)) s3
                        end
                    | None =>
                        read_attributes (raw ++ [c; c2])
                          (out ++ [ascii_of_nat d1]) (saw || non_ascii d1) s2
                    end
                | [] =>
                    read_attributes (raw ++ [c; c2])
                      (out ++ [ascii_of_nat d1]) (saw || non_ascii d1) s2
                end
            | None =>
                if decide (c2 = ascii_of_nat 120) then
                  match s2 with
                  | c3 :: s3 =>
                      match hex_digit c3 with
                      | Some h1 =>
                          match s3 with
                          | c4 :: s4 =>
                              match hex_digit c4 with
                              | Some h2 =>
                                  read_attributes (raw ++ [c; c2; c3; c4])
                                    (out ++ [ascii_of_nat (h1 * 16 + h2)])
                                    (saw || non_ascii (h1 * 16 + h2)) s4
                              | None =>
                                  read_attributes (raw ++ [c; c2; c3])
                                    (out ++ [ascii_of_nat h1])
                                    (saw || non_ascii h1) s3
                              end
                          | [] =>
                              read_attributes (raw ++ [c; c2; c3])
                                (out ++ [ascii_of_nat h1])
                                (saw || non_ascii h1) s3
                          end
                      | None =>
                          read_attributes (raw ++ [c; c2]) (out ++ [c2]) saw s2
                      end
                  | [] => read_attributes (raw ++ [c; c2]) (out ++ [c2]) saw s2
                  end
                else read_attributes (raw ++ [c; c2])
                       (out ++ [escaped_char c2]) saw s2
            end
        end
      else read_attributes (raw ++ [c]) (out ++ [c]) saw s1
  end.

(** The null marker of [copy_from]: backslash, [N]. *)
Definition null_marker : pystr := [backslash; ascii_of_nat 78].

(** The value of a field: [NULL] when the raw text is the null marker,
    the decoded text otherwise; the server raises ([None]) when a code made
    a NUL or a byte above 127 and the decoded text is not legal UTF-8. *)
Definition attribute_value (f : attribute) : option sqlval :=
  if decide (raw_text f = null_marker) then Some None
  else if saw_non_ascii f && negb (verify_utf8 (decoded f)) then None
  else Some (Some (decoded f)).

(** Storing into a [VARCHAR(n)] column: a longer string is an error unless
    the excess is made of spaces, which are cut. *)
Definition varchar (n : nat) (v : sqlval) : option sqlval :=
  match v with
  | None => Some None
  | Some s =>
      if bool_decide (length s ≤ n) then Some (Some s)
      else if bool_decide (Forall (λ c, c = space) (drop n s))
           then Some (Some (take n s))
           else None
  end.

(** One line of data makes one row of [temp_students]: every field is
    read, then there must be exactly three, for [name], [uni_roll] and
    [branch] in that order, each fitting its column. *)
Definition read_row (line : pystr) : option Student :=
  match mapM attribute_value (read_attributes [] [] false line) with
  | Some [f1; f2; f3] =>
      n ← varchar 255 f1; u ← varchar 100 f2; b ← varchar 50 f3;
      Some (mkStudent n u b)
  | _ => None
  end.

(** The rows a buffer holds, or [None] when the server rejects it. *)
Definition copy_rows (buffer : pystr) : option table :=
  read_lines EOL_UNKNOWN [] buffer ≫= mapM read_row.

(** *** INSERT ... SELECT ... ON CONFLICT (uni_roll) DO UPDATE *)

(** One proposed row: the row of [students] with the same key takes the
    proposed [name] and [branch]; without such a row the proposed row is
    inserted. *)
Fixpoint upsert (r : Student) (t : table) : table :=
  match t with
  | [] => [r]
  | r' :: t' =>
      if decide (uni_roll r' = uni_roll r)
      then mkStudent (name r) (uni_roll r') (branch r) :: t'
      else r' :: upsert r t'
  end.

(** The statement proposes the rows of [temp_students] one after the
    other.  A [NULL] key violates the primary key, and a key proposed for
    the second time makes the statement fail (it cannot affect a row
    twice); a failed statement changes nothing. *)
Fixpoint insert_on_conflict (touched : list sqlval) (src : table) (t : table)
  : option table :=
  match src with
  | [] => Some t
  | r :: src' =>
      if decide (uni_roll r = None) then None
      else if decide (uni_roll r ∈ touched) then None
      else insert_on_conflict (uni_roll r :: touched) src' (upsert r t)
  end.

(** The statements the script executes. *)
Inductive Query :=
  | create_table_query
      (* CREATE TABLE IF NOT EXISTS students (..., uni_roll ... PRIMARY KEY, ...) *)
  | drop_temp_if_exists    (* DROP TABLE IF EXISTS temp_students *)
  | create_temp            (* CREATE TABLE temp_students (...) *)
  | insert_from_temp       (* INSERT INTO students ... ON CONFLICT ... DO UPDATE *)
  | drop_temp              (* DROP TABLE temp_students *)
  | select_count.          (* SELECT COUNT( * ) FROM students *)

#[global] Instance Query_eq_dec : EqDecision Query.
Proof. solve_decision. Defined.

(** What the server does with a statement: the new database and, for the
    count, the number fetched; [None] when the statement raises.  With
    [autocommit] every statement is its own transaction. *)
Definition server_execute (q : Query) (d : Database)
  : option (Database * option nat) :=
  match q with
  | create_table_query =>
      Some (mkDatabase (Some (default [] (students d))) (temp_students d), None)
  | drop_temp_if_exists => Some (mkDatabase (students d) None, None)
  | create_temp =>
      match temp_students d with
      | Some _ => None
      | None => Some (mkDatabase (students d) (Some []), None)
      end
  | insert_from_temp =>
      s ← students d; t ← temp_students d;
      s' ← insert_on_conflict [] t s;
      Some (mkDatabase (Some s') (Some t), None)
  | drop_temp =>
      _ ← temp_students d; Some (mkDatabase (students d) None, None)
  | select_count =>
      s ← students d; Some (d, Some (length s))
  end.

(** What the server does with the COPY: all the rows of the buffer are
    appended to [temp_students], or none. *)
Definition server_copy (buffer : pystr) (d : Database) : option Database :=
  t ← temp_students d; new ← copy_rows buffer;
  Some (mkDatabase (students d) (Some (t ++ new))).

(** ** The script *)

(** The lines the script prints, with the numbers they show. *)
Inductive Msg :=
  | LoadingCsv | ErrorReadingCsv | LoadedRows (n : nat)
  | MissingColumns | WarnExtraColumns
  | WarnDuplicates (n : nat) | FinalRowCount (n : nat)
  | ConnectedOk | ConnectionFailed
  | CreatingTable | TableCreated | ErrorCreatingTable
  | PreparingData | TempTableCreated | ErrorCreatingTemp
  | ConvertingData | StartingCopy | LoadedIntoTemp (n : nat)
  | ErrorDuringCopy | FailedDataSaved
  | MovingData | DataTransferred | ErrorTransferring
  | TempCleaned | WarnDropTemp
  | Verification (count : nat) | WarnRowCount (expected count : nat)
  | WarnVerify
  | ConnectionClosed | TotalTime.

#[global] Instance Msg_eq_dec : EqDecision Msg.
Proof. solve_decision. Defined.

(** What the script does to the outside, in order. *)
Inductive Event :=
  | Print (m : Msg)
  | Connect                       (* psycopg2.connect *)
  | Execute (q : Query)           (* cur.execute *)
  | CopyFrom (buffer : pystr)     (* cur.copy_from *)
  | CursorClose                   (* cur.close *)
  | ConnClose                     (* conn.close *)
  | WriteFailedRows.              (* df.to_csv('failed_rows.csv') *)

#[global] Instance Event_eq_dec : EqDecision Event.
Proof. solve_decision. Defined.

Inductive ConnState := NotConnected | ConnOpen | ConnClosed.

#[global] Instance ConnState_eq_dec : EqDecision ConnState.
Proof. solve_decision. Defined.

(** The world the script runs in. *)
Record World := mkWorld {
  db : Database;
  failed_rows_csv : option pystr;   (* the file failed_rows.csv *)
  conn : ConnState;
  trace : list Event
}.

(** The calls that can raise on their own: the calls to the driver, and
    the write of the recovery file. *)
Inductive Call :=
  | CallExecute (q : Query)   (* cur.execute *)
  | CallCopy                  (* cur.copy_from *)
  | CallWriteFailedRows.      (* df.to_csv('failed_rows.csv') *)

(** What the script is given: the frame [pd.read_csv] returns ([None] when
    it raises), whether the connection can be made, and the calls that
    fail on their own: a call to the driver (a lost connection, a timeout)
    before the server does anything, the write of the recovery file (a
    directory that cannot be written) before the file is touched. *)
Record Env := mkEnv {
  read_csv : option DataFrame;
  connect_ok : bool;
  fault : Call → bool
}.

(** A step of the script returns a value or ends the process, through
    [sys.exit] or through an exception that nothing catches. *)
Inductive Result (A : Type) :=
  | Ret (a : A)
  | Exit (status : nat).
Arguments Ret {A} a.
Arguments Exit {A} status.

Definition Script (A : Type) : Type := World → Result A * World.

#[global] Instance Script_ret : MRet Script := λ A a w, (Ret a, w).
#[global] Instance Script_bind : MBind Script := λ A B f m w,
  match m w with
  | (Ret a, w') => f a w'
  | (Exit n, w') => (Exit n, w')
  end.

Definition ret {A} (a : A) : Script A := mret a.

Definition sys_exit {A} (status : nat) : Script A := λ w, (Exit status, w).

(** An exception that nothing catches: the interpreter prints the
    traceback and the process ends with status 1. *)
Definition uncaught {A} : Script A := λ w, (Exit 1, w).

(** The world after more events, and with another database, connection
    state or recovery file. *)
Definition log (evs : list Event) (w : World) : World :=
  mkWorld (db w) (failed_rows_csv w) (conn w) (trace w ++ evs).

Definition set_db (d : Database) (w : World) : World :=
  mkWorld d (failed_rows_csv w) (conn w) (trace w).

Definition set_conn (c : ConnState) (w : World) : World :=
  mkWorld (db w) (failed_rows_csv w) c (trace w).

Definition set_failed_rows (text : pystr) (w : World) : World :=
  mkWorld (db w) (Some text) (conn w) (trace w).

Definition emit (e : Event) : Script unit := λ w, (Ret (), log [e] w).

Definition print (m : Msg) : Script unit := emit (Print m).

(** [psycopg2.connect(...)]; [false] when it raises. *)
Definition connect (env : Env) : Script bool := λ w,
  if connect_ok env then (Ret true, set_conn ConnOpen (log [Connect] w))
  else (Ret false, log [Connect] w).

(** [cur.execute(q)]; [None] when it raises, the fetched count otherwise. *)
Definition execute (env : Env) (q : Query) : Script (option (option nat)) := λ w,
  if fault env (CallExecute q) then (Ret None, log [Execute q] w)
  else match server_execute q (db w) with
       | Some (d, r) => (Ret (Some r), set_db d (log [Execute q] w))
       | None => (Ret None, log [Execute q] w)
       end.

(** [cur.copy_from(buffer, 'temp_students', sep=',', columns=...)];
    [false] when it raises. *)
Definition copy_from (env : Env) (buffer : pystr) : Script bool := λ w,
  if fault env CallCopy then (Ret false, log [CopyFrom buffer] w)
  else match server_copy buffer (db w) with
       | Some d => (Ret true, set_db d (log [CopyFrom buffer] w))
       | None => (Ret false, log [CopyFrom buffer] w)
       end.

Definition cur_close : Script unit := emit CursorClose.

Definition conn_close : Script unit := λ w,
  (Ret (), set_conn ConnClosed (log [ConnClose] w)).

(** [df.to_csv('failed_rows.csv', index=False)].  The call stands in the
    handler of the COPY, outside any [try]: when it raises, nothing
    catches the exception. *)
Definition write_failed_rows (env : Env) (df : DataFrame) : Script unit :=
  emit WriteFailedRows;;
  if fault env CallWriteFailedRows then uncaught
  else λ w, (Ret (), set_failed_rows (to_csv true df) w).

Definition expected_columns : list pystr :=
  [py "name"; py "uni_roll"; py "branch"].

(** [df[c] = df[c].astype(str).str.replace(',', '').str.replace(QUOTE, '').str[:n]],
    where QUOTE is the string made of one double quote. *)
Definition clean_column (c : pystr) (n : nat) (df : DataFrame) : DataFrame :=
  setitem df c
    (str_slice_to n
       (str_replace dquote []
          (str_replace comma [] (astype_str (getitem df c))))).

(** The cleaning of lines 37 to 40. *)
Definition clean (df : DataFrame) : DataFrame :=
  let df := clean_column (py "name") 255 df in
  let df := clean_column (py "uni_roll") 100 df in
  let df := clean_column (py "branch") 50 df in
  dropna expected_columns df.

(** Step 1: load, validate, clean and deduplicate the CSV. *)
Definition step1 (env : Env) : Script DataFrame :=
  print LoadingCsv;;
  df ← match read_csv env with
       | Some df => ret df
       | None => print ErrorReadingCsv;; sys_exit 1
       end;
  print (LoadedRows (len df));;
  (if negb (forallb (λ col, bool_decide (col ∈ columns df)) expected_columns)
   then print MissingColumns;; sys_exit 1
   else ret ());;
  df ← (if bool_decide (length expected_columns < length (columns df))
        then print WarnExtraColumns;; ret (select df expected_columns)
        else ret df);
  let df := clean df in
  let duplicates := getitem_mask df (duplicated (getitem df (py "uni_roll"))) in
  df ← (if negb (empty duplicates)
        then print (WarnDuplicates (len duplicates));;
             ret (drop_duplicates (py "uni_roll") df)
        else ret df);
  print (FinalRowCount (len df));;
  ret df.

(** Step 3: connect. *)
Definition step3 (env : Env) : Script unit :=
  ok ← connect env;
  if ok : bool then print ConnectedOk
  else print ConnectionFailed;; sys_exit 1.

(** Step 4: create the table if it does not exist. *)
Definition step4 (env : Env) : Script unit :=
  print CreatingTable;;
  r ← execute env create_table_query;
  match r with
  | Some _ => print TableCreated
  | None => print ErrorCreatingTable;; cur_close;; conn_close;; sys_exit 1
  end.

(** Step 5, first block: a staging table without constraints. *)
Definition create_temp_table (env : Env) : Script unit :=
  print PreparingData;;
  r ← (r1 ← execute env drop_temp_if_exists;
       match r1 with
       | Some _ => execute env create_temp
       | None => ret None
       end);
  match r with
  | Some _ => print TempTableCreated
  | None => print ErrorCreatingTemp;; cur_close;; conn_close;; sys_exit 1
  end.

(** Step 5, second block: the frame as CSV text in memory, sent with COPY;
    when the COPY raises, the frame is saved to [failed_rows.csv] and then
    the cursor and the connection are closed. *)
Definition bulk_load (env : Env) (df : DataFrame) : Script unit :=
  print ConvertingData;;
  let buffer := to_csv false df in
  print StartingCopy;;
  ok ← copy_from env buffer;
  if ok : bool then print (LoadedIntoTemp (len df))
  else print ErrorDuringCopy;;
       write_failed_rows env df;;
       print FailedDataSaved;;
       cur_close;; conn_close;; sys_exit 1.

(** Step 5, third block: from the staging table to [students], with
    conflict handling. *)
Definition merge (env : Env) : Script unit :=
  print MovingData;;
  r ← execute env insert_from_temp;
  match r with
  | Some _ => print DataTransferred
  | None => print ErrorTransferring;; cur_close;; conn_close;; sys_exit 1
  end.

(** Step 5, fourth block: drop the staging table. *)
Definition cleanup (env : Env) : Script unit :=
  r ← execute env drop_temp;
  match r with
  | Some _ => print TempCleaned
  | None => print WarnDropTemp
  end.

(** Step 5, last block: compare the row count with the frame. *)
Definition verify (env : Env) (df : DataFrame) : Script unit :=
  r ← execute env select_count;
  match r with
  | Some (Some count) =>
      print (Verification count);;
      if bool_decide (count ≠ len df)
      then print (WarnRowCount (len df) count)
      else ret ()
  | _ => print WarnVerify
  end.

Definition step5 (env : Env) (df : DataFrame) : Script unit :=
  create_temp_table env;;
  bulk_load env df;;
  merge env;;
  cleanup env;;
  verify env df.

(** Step 6: close the connection and report the time. *)
Definition step6 : Script unit :=
  cur_close;; conn_close;; print ConnectionClosed;; print TotalTime.

Definition main (env : Env) : Script unit :=
  df ← step1 env;
  step3 env;;
  step4 env;;
  step5 env df;;
  step6.

(** The exit status of the process and the world it leaves: a script that
    runs to its end exits with status 0. *)
Definition run (env : Env) (w : World) : nat * World :=
  match main env w with
  | (Ret _, w') => (0, w')
  | (Exit n, w') => (n, w')
  end.

(** ** Notions for the statements *)

(** The frame after line 34, the frame after line 44, and the dataset the
    script sends to the database, when the frame read passes the
    validation. *)
Definition validated (df : DataFrame) : DataFrame :=
  if bool_decide (length expected_columns < length (columns df))
  then select df expected_columns else df.

Definition deduplicated (df : DataFrame) : DataFrame :=
  if negb (empty (getitem_mask df (duplicated (getitem df (py "uni_roll")))))
  then drop_duplicates (py "uni_roll") df else df.

Definition cleaned (df : DataFrame) : DataFrame :=
  deduplicated (clean (validated df)).

(** A row of the frame after line 34. *)
Definition validated_row (df : DataFrame) (r : list cell) : list cell :=
  if bool_decide (length expected_columns < length (columns df))
  then (λ c, row_get (columns df) c r) <$> expected_columns else r.

(** The calls that create a table or move rows. *)
Definition is_database_call (e : Event) : bool :=
  match e with
  | Execute _ | CopyFrom _ => true
  | _ => false
  end.

(** Frames where the three required labels are present (line 29). *)
Definition has_required (df : DataFrame) : bool :=
  forallb (λ col, bool_decide (col ∈ columns df)) expected_columns.

(** The widths of the columns. *)
Definition widths : list (pystr * nat) :=
  [(py "name", 255); (py "uni_roll", 100); (py "branch", 50)].

(** The text of a cell as [astype(str)] gives it. *)
Definition cell_str (c : cell) : pystr :=
  match c with Str t => t | NaN => py "nan" end.

(** Commas and double quotes removed. *)
Definition strip (s : pystr) : pystr :=
  py_replace dquote [] (py_replace comma [] s).

(** The text lines 37 to 39 leave in a cell of a column of width [n]. *)
Definition clean_text (n : nat) (c : cell) : pystr :=
  py_slice_to n (strip (cell_str c)).

(** One cleaned column, seen from a row: the cell under the label is
    replaced. *)
Definition clean_cell (cols : list pystr) (c : pystr) (n : nat) (r : list cell)
  : list cell :=
  match col_index c cols with
  | Some i => <[i := Str (clean_text n (row_get cols c r))]> r
  | None => r
  end.

(** The three cleaned columns, seen from a row. *)
Definition clean_row (cols : list pystr) (r : list cell) : list cell :=
  clean_cell cols (py "branch") 50
    (clean_cell cols (py "uni_roll") 100
       (clean_cell cols (py "name") 255 r)).

(** The rows line 44 keeps and the rows line 41 selects, for the values
    already [seen], when the rows have the given [key]. *)
Definition kept {A} (key : A → cell) (seen : list cell) (l : list A) : list A :=
  mask_rows (negb <$> duplicated_from seen (key <$> l)) l.

Definition discarded {A} (key : A → cell) (seen : list cell) (l : list A)
  : list A :=
  mask_rows (duplicated_from seen (key <$> l)) l.

(** What step 1 prints for a frame that has the required columns. *)
Definition step1_events (df : DataFrame) : list Event :=
  [Print LoadingCsv; Print (LoadedRows (len df))]
  ++ (if bool_decide (length expected_columns < length (columns df))
      then [Print WarnExtraColumns] else [])
  ++ (let df' := clean (validated df) in
      let duplicates :=
        getitem_mask df' (duplicated (getitem df' (py "uni_roll"))) in
      if negb (empty duplicates)
      then [Print (WarnDuplicates (len duplicates))] else [])
  ++ [Print (FinalRowCount (len (cleaned df)))].

(** ** Text that the COPY reads back as it is *)

(** The characters the csv writer and the COPY treat specially. *)
Definition special_chars : list ascii := [comma; dquote; backslash; LF; CR; NUL].

Definition plain (s : pystr) : bool :=
  forallb (λ c, bool_decide (c ∉ special_chars)) s.

(** Frames whose cells hold none of the characters above. *)
Definition plain_frame (df : DataFrame) : bool :=
  forallb (forallb (λ c, plain (cell_text c))) (rows df).

(** The row of [temp_students] a row of three cells makes: the cells go, in
    the order of the frame, to [name], [uni_roll] and [branch]. *)
Definition stage_row (r : list cell) : option Student :=
  match r with
  | [a; b; c] =>
      n ← varchar 255 (Some (cell_text a));
      u ← varchar 100 (Some (cell_text b));
      b ← varchar 50 (Some (cell_text c));
      Some (mkStudent n u b)
  | _ => None
  end.

(** The row of [students] that holds the cells of a row under their labels. *)
Definition student_of (cols : list pystr) (r : list cell) : Student :=
  mkStudent (Some (cell_text (row_get cols (py "name") r)))
            (Some (cell_text (row_get cols (py "uni_roll") r)))
            (Some (cell_text (row_get cols (py "branch") r))).

(** ** The paths of the script *)

(** The exit status and the world the script leaves, path by path. *)
Definition outcome (env : Env) (w : World) : nat * World :=
  let out status d f c evs := (status, mkWorld d f c (trace w ++ evs)) in
  let closed := [CursorClose; ConnClose] in
  match read_csv env with
  | None =>
      out 1 (db w) (failed_rows_csv w) (conn w)
        [Print LoadingCsv; Print ErrorReadingCsv]
  | Some df0 =>
  if negb (has_required df0) then
    out 1 (db w) (failed_rows_csv w) (conn w)
      [Print LoadingCsv; Print (LoadedRows (len df0)); Print MissingColumns]
  else
  let df := cleaned df0 in
  let e1 := step1_events df0 in
  if negb (connect_ok env) then
    out 1 (db w) (failed_rows_csv w) (conn w)
      (e1 ++ [Connect; Print ConnectionFailed])
  else
  let e3 := e1 ++ [Connect; Print ConnectedOk] in
  if fault env (CallExecute create_table_query) then
    out 1 (db w) (failed_rows_csv w) ConnClosed
      (e3 ++ [Print CreatingTable; Execute create_table_query;
              Print ErrorCreatingTable] ++ closed)
  else
  let s0 := default [] (students (db w)) in
  let e4 := e3 ++ [Print CreatingTable; Execute create_table_query;
                   Print TableCreated] in
  if fault env (CallExecute drop_temp_if_exists) then
    out 1 (mkDatabase (Some s0) (temp_students (db w))) (failed_rows_csv w)
      ConnClosed
      (e4 ++ [Print PreparingData; Execute drop_temp_if_exists;
              Print ErrorCreatingTemp] ++ closed)
  else
  if fault env (CallExecute create_temp) then
    out 1 (mkDatabase (Some s0) None) (failed_rows_csv w) ConnClosed
      (e4 ++ [Print PreparingData; Execute drop_temp_if_exists;
              Execute create_temp; Print ErrorCreatingTemp] ++ closed)
  else
  let buffer := to_csv false df in
  let e5 := e4 ++ [Print PreparingData; Execute drop_temp_if_exists;
                   Execute create_temp; Print TempTableCreated;
                   Print ConvertingData; Print StartingCopy; CopyFrom buffer] in
  match (if fault env CallCopy then None else copy_rows buffer) with
  | None =>
      if fault env CallWriteFailedRows then
        out 1 (mkDatabase (Some s0) (Some [])) (failed_rows_csv w) ConnOpen
          (e5 ++ [Print ErrorDuringCopy; WriteFailedRows])
      else
      out 1 (mkDatabase (Some s0) (Some [])) (Some (to_csv true df)) ConnClosed
        (e5 ++ [Print ErrorDuringCopy; WriteFailedRows; Print FailedDataSaved]
            ++ closed)
  | Some staged =>
  let e6 := e5 ++ [Print (LoadedIntoTemp (len df)); Print MovingData;
                   Execute insert_from_temp] in
  match (if fault env (CallExecute insert_from_temp) then None
         else insert_on_conflict [] staged s0) with
  | None =>
      out 1 (mkDatabase (Some s0) (Some staged)) (failed_rows_csv w) ConnClosed
        (e6 ++ [Print ErrorTransferring] ++ closed)
  | Some s1 =>
  let dropped := negb (fault env (CallExecute drop_temp)) in
  let e7 := e6 ++ [Print DataTransferred; Execute drop_temp;
                   Print (if dropped then TempCleaned else WarnDropTemp);
                   Execute select_count] in
  let e8 :=
    if fault env (CallExecute select_count) then [Print WarnVerify]
    else Print (Verification (length s1))
         :: (if bool_decide (length s1 ≠ len df)
             then [Print (WarnRowCount (len df) (length s1))] else []) in
  out 0 (mkDatabase (Some s1) (if dropped then None else Some staged))
    (failed_rows_csv w) ConnClosed
    (e7 ++ e8 ++ closed ++ [Print ConnectionClosed; Print TotalTime])
  end end end.

(** ** Example inputs *)

(** An environment where nothing fails, and a world with an empty
    database. *)
Definition no_fault : Call → bool := λ _, false.

Definition fresh_world : World :=
  mkWorld (mkDatabase None None) None NotConnected [].

(** A file where the first and the third row share their [uni_roll]. *)
Definition df_dup : DataFrame :=
  mkDataFrame expected_columns
    [[Str (py "Ann"); Str (py "R1"); Str (py "CSE")];
     [Str (py "Bob"); Str (py "R2"); Str (py "ECE")];
     [Str (py "Cid"); Str (py "R1"); Str (py "ME")]].

(** A file whose only row has no [name]. *)
Definition df_missing : DataFrame :=
  mkDataFrame expected_columns [[NaN; Str (py "R1"); Str (py "CSE")]].

(** The file of the specification: an extra column and a comma in the
    quoted name. *)
Definition df_extra : DataFrame :=
  mkDataFrame [py "name"; py "uni_roll"; py "branch"; py "extra_col"]
    [[Str (py "A,B"); Str (py "R1"); Str (py "X"); Str (py "ignored")]].

(** Environments where the COPY raises, and where the cleanup and the
    count raise. *)
Definition copy_fault : Call → bool :=
  λ c, match c with CallCopy => true | _ => false end.

(** The COPY raises, and the write of the recovery file raises too. *)
Definition copy_and_write_fault : Call → bool :=
  λ c, match c with CallCopy | CallWriteFailedRows => true | _ => false end.

Definition cleanup_fault : Call → bool :=
  λ c, match c with
       | CallExecute drop_temp | CallExecute select_count => true
       | _ => false
       end.

Definition staged_dup : list Student :=
  [mkStudent (Some (py "Ann")) (Some (py "R1")) (Some (py "CSE"));
   mkStudent (Some (py "Bob")) (Some (py "R2")) (Some (py "ECE"))].

(** A database where the staging table proposes a row for a key that
    [students] holds and a row for a new key. *)
Definition db_merge : Database :=
  mkDatabase
    (Some [mkStudent (Some (py "Ann")) (Some (py "R1")) (Some (py "CSE"));
           mkStudent (Some (py "Dan")) (Some (py "R9")) (Some (py "EE"))])
    (Some [mkStudent (Some (py "Ann B")) (Some (py "R1")) (Some (py "IT"));
           mkStudent (Some (py "Bob")) (Some (py "R2")) (Some (py "ECE"))]).

(** A world where [students] holds a row for a [uni_roll] that the file
    does not have. *)
Definition world_with_other_row : World :=
  mkWorld
    (mkDatabase
       (Some [mkStudent (Some (py "Dan")) (Some (py "R9")) (Some (py "EE"))])
       None)
    None NotConnected [].

(** A name with a backslash. *)
Definition df_backslash : DataFrame :=
  mkDataFrame expected_columns
    [[Str (py "A\B"); Str (py "R1"); Str (py "X")]].

(** The letter [a]. *)
Definition letter_a : ascii := ascii_of_nat 97.

(** A name longer than its column: a backslash, then 300 letters. *)
Definition df_long_backslash : DataFrame :=
  mkDataFrame expected_columns
    [[Str (backslash :: replicate 300 letter_a); Str (py "R1"); Str (py "X")]].

(** A name with a line feed. *)
Definition df_newline : DataFrame :=
  mkDataFrame expected_columns
    [[Str (py "A" ++ [LF] ++ py "B"); Str (py "R1"); Str (py "X")]].

(** A branch that ends with a carriage return. *)
Definition df_carriage_return : DataFrame :=
  mkDataFrame expected_columns
    [[Str (py "A"); Str (py "R1"); Str (py "X" ++ [CR])]].

(** A file whose header is [uni_roll,name,branch]. *)
Definition df_permuted : DataFrame :=
  mkDataFrame [py "uni_roll"; py "name"; py "branch"]
    [[Str (py "R1"); Str (py "Ann"); Str (py "CSE")]].

(** Two rows, the cells of the first one ending in a backslash. *)
Definition df_escapes : DataFrame :=
  mkDataFrame expected_columns
    [[Str (py "a" ++ [backslash]); Str (py "b" ++ [backslash]);
      Str (py "c" ++ [backslash])];
     [Str (py "d"); Str (py "R2"); Str (py "X")]].

(** ** Further example inputs *)

(** The driver fails at the creation of [students]. *)
Definition create_fault : Call → bool :=
  λ c, match c with CallExecute create_table_query => true | _ => false end.

(** The driver fails at the upsert. *)
Definition merge_fault : Call → bool :=
  λ c, match c with CallExecute insert_from_temp => true | _ => false end.

(** A file with a header and no row. *)
Definition df_empty : DataFrame := mkDataFrame expected_columns [].

(** The database calls of a run that goes all the way, in their order. *)
Definition database_calls (df : DataFrame) : list Event :=
  [Execute create_table_query; Execute drop_temp_if_exists;
   Execute create_temp; CopyFrom (to_csv false (cleaned df));
   Execute insert_from_temp; Execute drop_temp; Execute select_count].

(** * Properties *)

(** ** Strings *)

Lemma py_replace_nil pat s : py_replace pat [] s = filter (λ c, c ≠ pat) s.
Proof.
  unfold py_replace. induction s as [|c s IH]; [done|].
  rewrite bind_cons, filter_cons, IH.
  destruct (decide (c = pat)), (decide (c ≠ pat)); naive_solver.
Qed.

Lemma elem_of_strip c s : c ∈ strip s ↔ c ∈ s ∧ c ≠ comma ∧ c ≠ dquote.
Proof.
  unfold strip. rewrite !py_replace_nil, !list_elem_of_filter. tauto.
Qed.

Lemma elem_of_clean_text c n x :
  c ∈ clean_text n x → c ∈ cell_str x ∧ c ≠ comma ∧ c ≠ dquote.
Proof.
  unfold clean_text, py_slice_to. intros H.
  apply elem_of_strip. by apply (subseteq_take n).
Qed.

Lemma length_clean_text n x : length (clean_text n x) ≤ n.
Proof. unfold clean_text, py_slice_to. rewrite length_take. lia. Qed.

Lemma length_clean_text_full n x :
  n ≤ length (strip (cell_str x)) → length (clean_text n x) = n.
Proof. unfold clean_text, py_slice_to. rewrite length_take. lia. Qed.

(** ** The cleaning, row by row *)

Lemma clean_series n (s : Series) :
  str_slice_to n (str_replace dquote [] (str_replace comma [] (astype_str s)))
  = (λ c, Str (clean_text n c)) <$> s.
Proof.
  unfold str_slice_to, str_replace, astype_str.
  rewrite <- !list_fmap_compose. apply list_fmap_ext.
  intros _ [t|] _; reflexivity.
Qed.

Lemma zip_with_fmap_same {A B C} (f : A → B → C) (g : A → B) (l : list A) :
  zip_with f l (g <$> l) = (λ x, f x (g x)) <$> l.
Proof. induction l; cbn; congruence. Qed.

Lemma col_index_Some c cols i :
  col_index c cols = Some i → cols !! i = Some c.
Proof.
  revert i. induction cols as [|c' cols IH]; intros i; cbn; [done|].
  destruct (decide (c' = c)) as [->|]; [by intros [= <-]|].
  destruct (col_index c cols) as [j|]; cbn; [|done].
  intros [= <-]. cbn. by apply IH.
Qed.

Lemma col_index_elem_of c cols : c ∈ cols → is_Some (col_index c cols).
Proof.
  induction 1 as [|c' c'' cols _ IH]; cbn.
  - rewrite decide_True by done. eauto.
  - destruct (decide (c'' = c')); [eauto|].
    destruct IH as [j ->]. cbn. eauto.
Qed.

Lemma col_index_NoDup c cols i :
  NoDup cols → cols !! i = Some c → col_index c cols = Some i.
Proof.
  intros Hnd Hi.
  destruct (col_index_elem_of c cols) as [j Hj].
  { eapply list_elem_of_lookup_2; eauto. }
  rewrite Hj. f_equal. apply col_index_Some in Hj.
  eapply NoDup_lookup; eauto.
Qed.

Lemma col_index_ne c c' cols i j :
  c ≠ c' → col_index c cols = Some i → col_index c' cols = Some j → i ≠ j.
Proof.
  intros Hne Hi%col_index_Some Hj%col_index_Some ->. congruence.
Qed.

Lemma clean_column_present c n df :
  c ∈ columns df →
  clean_column c n df
  = mkDataFrame (columns df) (clean_cell (columns df) c n <$> rows df).
Proof.
  intros [i Hi]%col_index_elem_of.
  unfold clean_column, setitem, getitem. rewrite Hi, clean_series.
  rewrite <- list_fmap_compose, zip_with_fmap_same.
  f_equal. apply list_fmap_ext. intros _ r _. unfold clean_cell. by rewrite Hi.
Qed.

Lemma length_clean_cell cols c n r : length (clean_cell cols c n r) = length r.
Proof. unfold clean_cell. destruct (col_index c cols); [apply length_insert|done]. Qed.

Lemma row_get_clean_cell_eq cols c n r :
  c ∈ cols → length r = length cols →
  row_get cols c (clean_cell cols c n r) = Str (clean_text n (row_get cols c r)).
Proof.
  intros [i Hi]%col_index_elem_of Hlen.
  unfold clean_cell. rewrite Hi. unfold row_get at 1. rewrite Hi.
  rewrite list_lookup_insert_eq; [done|].
  apply col_index_Some, lookup_lt_Some in Hi. lia.
Qed.

Lemma row_get_clean_cell_ne cols c c' n r :
  c ≠ c' → row_get cols c' (clean_cell cols c n r) = row_get cols c' r.
Proof.
  intros Hne. unfold clean_cell.
  destruct (col_index c cols) as [i|] eqn:Hi; [|done].
  unfold row_get at 1 3. destruct (col_index c' cols) as [j|] eqn:Hj; [|done].
  rewrite list_lookup_insert_ne; [done|]. eapply col_index_ne; eauto.
Qed.

Lemma length_clean_row cols r : length (clean_row cols r) = length r.
Proof. unfold clean_row. by rewrite !length_clean_cell. Qed.

Lemma row_get_clean_row cols r c n :
  (c, n) ∈ widths → c ∈ cols → length r = length cols →
  row_get cols c (clean_row cols r) = Str (clean_text n (row_get cols c r)).
Proof.
  intros Hc Hin Hlen. unfold clean_row, widths in *.
  apply elem_of_cons in Hc as [[= -> ->]|Hc];
    [|apply elem_of_cons in Hc as [[= -> ->]|Hc];
      [|apply list_elem_of_singleton in Hc as [= -> ->]]].
  - rewrite !(row_get_clean_cell_ne _ _ (py "name")) by done.
    by apply row_get_clean_cell_eq.
  - rewrite (row_get_clean_cell_ne _ _ (py "uni_roll")) by done.
    rewrite row_get_clean_cell_eq by (by rewrite ?length_clean_cell).
    by rewrite row_get_clean_cell_ne.
  - rewrite row_get_clean_cell_eq by (by rewrite ?length_clean_cell).
    by rewrite !row_get_clean_cell_ne.
Qed.

Lemma has_required_elem_of df c :
  has_required df = true → c ∈ expected_columns → c ∈ columns df.
Proof.
  unfold has_required. rewrite forallb_forall. intros H Hc.
  apply list_elem_of_In, H in Hc. by apply bool_decide_eq_true_1 in Hc.
Qed.

Lemma widths_expected c : c ∈ expected_columns ↔ ∃ n, (c, n) ∈ widths.
Proof.
  unfold expected_columns, widths. split.
  - rewrite !elem_of_cons, elem_of_nil.
    intros [->|[->|[->|[]]]]; [exists 255|exists 100|exists 50];
      rewrite !elem_of_cons; tauto.
  - intros [n H]. rewrite !elem_of_cons, elem_of_nil in H.
    rewrite !elem_of_cons.
    destruct H as [[= -> _]|[[= -> _]|[[= -> _]|[]]]]; tauto.
Qed.

(** After lines 37 to 39 no required cell is missing any more, so the
    [dropna] of line 40 keeps every row. *)
Lemma clean_rows df :
  wf_frame df → has_required df = true →
  clean df = mkDataFrame (columns df) (clean_row (columns df) <$> rows df).
Proof.
  intros [Hnd Hlen] Hreq. unfold clean.
  assert (∀ c, c ∈ expected_columns → c ∈ columns df) as Hin
    by eauto using has_required_elem_of.
  rewrite (clean_column_present (py "name")) by (apply Hin; set_solver).
  rewrite (clean_column_present (py "uni_roll")) by (apply Hin; set_solver).
  rewrite (clean_column_present (py "branch")) by (apply Hin; set_solver).
  unfold dropna; cbn [columns rows]. f_equal.
  rewrite <- !list_fmap_compose.
  change (_ ∘ _ ∘ _) with (clean_row (columns df)).
  induction (rows df) as [|r l IH]; [done|].
  apply Forall_cons in Hlen as [Hr Hl].
  rewrite fmap_cons, filter_cons, decide_True, IH; [done..|].
  apply Forall_forall. intros c Hc.
  pose proof Hc as [n Hn]%widths_expected.
  by rewrite (row_get_clean_row _ _ _ n) by eauto.
Qed.

(** ** Deduplication *)

Section dedup.
Context {A : Type} (key : A → cell).

Local Abbreviation kept := (kept key).
Local Abbreviation discarded := (discarded key).

Lemma kept_cons seen r l :
  kept seen (r :: l)
  = if bool_decide (key r ∈ seen) then kept (key r :: seen) l
    else r :: kept (key r :: seen) l.
Proof. unfold kept. cbn. by destruct (bool_decide _). Qed.

Lemma discarded_cons seen r l :
  discarded seen (r :: l)
  = if bool_decide (key r ∈ seen) then r :: discarded (key r :: seen) l
    else discarded (key r :: seen) l.
Proof. unfold discarded. cbn. by destruct (bool_decide _). Qed.

Lemma elem_of_kept seen l r : r ∈ kept seen l → r ∈ l ∧ key r ∉ seen.
Proof.
  revert seen. induction l as [|x l IH]; intros seen.
  - intros H. by apply elem_of_nil in H.
  - rewrite kept_cons. case_bool_decide as Hx.
    + intros [? Hn]%IH. split; [by right|]. intros ?. apply Hn. by right.
    + intros [->|[? Hn]%IH]%elem_of_cons; [split; [by left|done]|].
      split; [by right|]. intros ?. apply Hn. by right.
Qed.

Lemma kept_sublist seen l : kept seen l `sublist_of` l.
Proof.
  revert seen. induction l as [|x l IH]; intros seen; [done|].
  rewrite kept_cons. case_bool_decide.
  - by apply sublist_cons.
  - by apply sublist_skip.
Qed.

Lemma kept_NoDup seen l : NoDup (key <$> kept seen l).
Proof.
  revert seen. induction l as [|x l IH]; intros seen; [constructor|].
  rewrite kept_cons. case_bool_decide; [done|].
  rewrite fmap_cons. constructor; [|done].
  intros (r & Hk & [_ Hr]%elem_of_kept)%list_elem_of_fmap.
  apply Hr. rewrite Hk. by left.
Qed.

Lemma kept_complete seen l k :
  k ∈ key <$> l → k ∉ seen → k ∈ key <$> kept seen l.
Proof.
  revert seen. induction l as [|x l IH]; intros seen.
  - intros H. by apply elem_of_nil in H.
  - rewrite fmap_cons, kept_cons. intros Hk Hs.
    destruct (decide (k = key x)) as [->|Hne].
    + rewrite bool_decide_eq_false_2 by done. by left.
    + apply elem_of_cons in Hk as [?|Hk]; [done|].
      assert (k ∈ key <$> kept (key x :: seen) l).
      { apply IH; [done|]. intros [?|?]%elem_of_cons; done. }
      case_bool_decide; [done|by right].
Qed.

(** A kept row is the first row with its key. *)
Lemma kept_first seen l r :
  r ∈ kept seen l →
  ∃ l1 l2, l = l1 ++ r :: l2 ∧ key r ∉ key <$> l1.
Proof.
  revert seen. induction l as [|x l IH]; intros seen.
  - intros H. by apply elem_of_nil in H.
  - rewrite kept_cons. intros H.
    assert (r ∈ kept (key x :: seen) l →
            ∃ l1 l2, x :: l = l1 ++ r :: l2 ∧ key r ∉ key <$> l1) as Hrec.
    { intros Hr. pose proof Hr as [_ Hn]%elem_of_kept.
      destruct (IH _ Hr) as (l1 & l2 & -> & Hl1).
      exists (x :: l1), l2. split; [done|].
      rewrite fmap_cons. intros [Heq|?]%elem_of_cons; [|done].
      apply Hn. rewrite Heq. by left. }
    case_bool_decide; [by apply Hrec|].
    apply elem_of_cons in H as [->|H]; [|by apply Hrec].
    exists [], l. split; [done|]. cbn. apply not_elem_of_nil.
Qed.

Lemma length_kept_discarded seen l :
  length (kept seen l) + length (discarded seen l) = length l.
Proof.
  revert seen. induction l as [|x l IH]; intros seen; [done|].
  rewrite kept_cons, discarded_cons. specialize (IH (key x :: seen)).
  case_bool_decide; cbn; lia.
Qed.

Lemma discarded_nil_kept seen l : discarded seen l = [] → kept seen l = l.
Proof.
  revert seen. induction l as [|x l IH]; intros seen; [done|].
  rewrite kept_cons, discarded_cons. case_bool_decide; [done|].
  intros Hd. f_equal. by apply IH.
Qed.
End dedup.

(** ** The frame the script sends *)

Lemma expected_columns_NoDup : NoDup expected_columns.
Proof. apply (bool_decide_unpack _). by vm_compute. Qed.

Lemma clean_columns df :
  has_required df = true → columns (clean df) = columns df.
Proof.
  intros Hreq. unfold clean.
  assert (∀ c, c ∈ expected_columns → c ∈ columns df) as Hin
    by eauto using has_required_elem_of.
  rewrite (clean_column_present (py "name")) by (apply Hin; set_solver).
  rewrite (clean_column_present (py "uni_roll")) by (apply Hin; set_solver).
  by rewrite (clean_column_present (py "branch")) by (apply Hin; set_solver).
Qed.

Lemma validated_has_required df :
  has_required df = true → has_required (validated df) = true.
Proof. unfold validated. by case_bool_decide. Qed.

Lemma validated_columns_nonempty df :
  has_required df = true → columns (validated df) ≠ [].
Proof.
  intros H%validated_has_required ?.
  assert (py "name" ∈ columns (validated df)) as Hin.
  { eapply has_required_elem_of; [done|]. unfold expected_columns. set_solver. }
  rewrite H0 in Hin. by apply elem_of_nil in Hin.
Qed.

Lemma validated_wf df : wf_frame df → wf_frame (validated df).
Proof.
  intros Hwf. unfold validated. case_bool_decide; [|done].
  split; cbn [select columns rows].
  - apply expected_columns_NoDup.
  - apply Forall_fmap, Forall_true. intros r. cbn. by rewrite ?length_fmap.
Qed.

Lemma deduplicated_eq df :
  columns df ≠ [] →
  deduplicated df
  = mkDataFrame (columns df)
      (kept (row_get (columns df) (py "uni_roll")) [] (rows df)).
Proof.
  intros Hcols. unfold deduplicated, empty, getitem_mask, drop_duplicates,
    duplicated, getitem. cbn [rows columns].
  rewrite (bool_decide_eq_false_2 (columns df = [])), orb_false_r by done.
  fold (discarded (row_get (columns df) (py "uni_roll")) [] (rows df)).
  fold (kept (row_get (columns df) (py "uni_roll")) [] (rows df)).
  case_bool_decide as Hd; cbn [negb]; [|done].
  rewrite discarded_nil_kept by done. by destruct df.
Qed.

Lemma cleaned_eq df :
  has_required df = true →
  cleaned df
  = mkDataFrame (columns (validated df))
      (kept (row_get (columns (validated df)) (py "uni_roll")) []
         (rows (clean (validated df)))).
Proof.
  intros Hreq. unfold cleaned.
  pose proof (clean_columns _ (validated_has_required _ Hreq)) as Hc.
  rewrite deduplicated_eq; rewrite Hc; [done|].
  by apply validated_columns_nonempty.
Qed.

Lemma len_discarded df :
  has_required df = true →
  length (discarded (row_get (columns (validated df)) (py "uni_roll")) []
            (rows (clean (validated df))))
  = len (clean (validated df)) - len (cleaned df).
Proof.
  intros Hreq. rewrite cleaned_eq by done. unfold len. cbn [rows].
  pose proof (length_kept_discarded
    (row_get (columns (validated df)) (py "uni_roll")) []
    (rows (clean (validated df)))). lia.
Qed.

Ltac script_unfold :=
  cbv beta iota delta
    [mbind Script_bind ret mret Script_ret print emit sys_exit uncaught
     cur_close conn_close write_failed_rows].

Lemma log_log evs1 evs2 w : log evs2 (log evs1 w) = log (evs1 ++ evs2) w.
Proof. unfold log. cbn. by rewrite app_assoc. Qed.

Lemma log_nil w : log [] w = w.
Proof. destruct w. unfold log. cbn. by rewrite app_nil_r. Qed.

Lemma step1_ok env w df :
  read_csv env = Some df → has_required df = true →
  step1 env w = (Ret (cleaned df), log (step1_events df) w).
Proof.
  intros Hread Hreq. unfold step1, step1_events, cleaned, deduplicated, validated.
  rewrite Hread. script_unfold.
  fold (has_required df). rewrite Hreq. cbn [negb].
  case_bool_decide; cbn zeta;
    destruct (negb (empty _)); rewrite !log_log; reflexivity.
Qed.

(** ** The csv text and the COPY *)

Lemma plain_Forall s : plain s = true ↔ Forall (λ c, c ∉ special_chars) s.
Proof.
  unfold plain. rewrite forallb_forall, Forall_forall.
  split; intros H c Hc.
  - apply list_elem_of_In, H in Hc. by apply bool_decide_eq_true_1 in Hc.
  - apply bool_decide_eq_true_2, H. by apply list_elem_of_In.
Qed.

Lemma not_special c :
  c ∉ special_chars ↔
  c ≠ comma ∧ c ≠ dquote ∧ c ≠ backslash ∧ c ≠ LF ∧ c ≠ CR ∧ c ≠ NUL.
Proof.
  unfold special_chars. rewrite !not_elem_of_cons. 
  pose proof (not_elem_of_nil c). tauto.
Qed.

Lemma read_lines_line eol cur l rest :
  eol = EOL_UNKNOWN ∨ eol = EOL_NL →
  Forall (λ c, c ∉ [backslash; LF; CR; NUL]) l →
  read_lines eol cur (l ++ LF :: rest)
  = ((cur ++ l) ::.) <$> read_lines EOL_NL [] rest.
Proof.
  intros Heol Hl. revert cur. induction Hl as [|c l Hc Hl IH]; intros cur.
  - rewrite app_nil_r. cbn.
    by destruct Heol as [-> | ->].
  - rewrite !not_elem_of_cons in Hc. destruct Hc as (? & ? & ? & ? & _).
    cbn. rewrite !decide_False by done.
    rewrite IH. by rewrite <- app_assoc.
Qed.

Lemma read_lines_lines eol (lines : list pystr) :
  eol = EOL_UNKNOWN ∨ eol = EOL_NL →
  Forall (Forall (λ c, c ∉ [backslash; LF; CR; NUL])) lines →
  read_lines eol [] (mjoin ((λ l, l ++ [LF]) <$> lines)) = Some lines.
Proof.
  intros Heol Hl. revert eol Heol.
  induction Hl as [|l lines Hl _ IH]; intros eol Heol; [done|].
  rewrite fmap_cons. cbn [mjoin list_join]. rewrite <- app_assoc. cbn [app].
  rewrite read_lines_line, IH by eauto. done.
Qed.

Lemma read_attributes_last raw out saw f :
  Forall (λ c, c ∉ special_chars) f →
  read_attributes raw out saw f = [mkAttribute (raw ++ f) (out ++ f) saw].
Proof.
  intros Hf. revert raw out. induction Hf as [|c f Hc Hf IH]; intros raw out.
  - by rewrite !app_nil_r.
  - apply not_special in Hc as (? & _ & ? & _).
    cbn. rewrite !decide_False by done. rewrite IH. by rewrite <- !app_assoc.
Qed.

Lemma read_attributes_field raw out saw f rest :
  Forall (λ c, c ∉ special_chars) f →
  read_attributes raw out saw (f ++ comma :: rest)
  = mkAttribute (raw ++ f) (out ++ f) saw :: read_attributes [] [] false rest.
Proof.
  intros Hf. revert raw out. induction Hf as [|c f Hc Hf IH]; intros raw out.
  - rewrite !app_nil_r. cbn. by rewrite decide_True.
  - apply not_special in Hc as (? & _ & ? & _).
    cbn. rewrite !decide_False by done. rewrite IH. by rewrite <- !app_assoc.
Qed.

Lemma attribute_value_plain f :
  Forall (λ c, c ∉ special_chars) f →
  attribute_value (mkAttribute f f false) = Some (Some f).
Proof.
  intros Hf. unfold attribute_value. cbn. rewrite decide_False; [done|].
  intros ->. apply Forall_cons in Hf as [Hc _].
  by apply not_special in Hc as (_ & _ & ? & _).
Qed.

Lemma csv_field_plain f :
  Forall (λ c, c ∉ special_chars) f → csv_field f = f.
Proof.
  intros Hf. unfold csv_field, needs_quote.
  rewrite bool_decide_eq_false_2; [done|].
  rewrite Exists_exists. intros (c & Hc & Hs).
  rewrite Forall_forall in Hf. apply Hf in Hc. apply not_special in Hc.
  rewrite !elem_of_cons, elem_of_nil in Hs. intuition.
Qed.

(** The line the writer makes of a row of three plain cells, and the row
    the server makes of the line. *)
Lemma writerow_plain a b c :
  Forall (λ c, c ∉ special_chars) a →
  Forall (λ c, c ∉ special_chars) b →
  Forall (λ c, c ∉ special_chars) c →
  writerow [a; b; c] = (a ++ comma :: b ++ comma :: c) ++ [LF]
  ∧ Forall (λ c, c ∉ [backslash; LF; CR; NUL]) (a ++ comma :: b ++ comma :: c)
  ∧ read_row (a ++ comma :: b ++ comma :: c)
    = (n ← varchar 255 (Some a); u ← varchar 100 (Some b);
       b ← varchar 50 (Some c); Some (mkStudent n u b)).
Proof.
  intros Ha Hb Hc. split_and!.
  - unfold writerow. rewrite decide_False by done. cbn.
    by rewrite !csv_field_plain.
  - assert (∀ x, x ∉ special_chars → x ∉ [backslash; LF; CR; NUL]) as Hsub.
    { intros x Hx%not_special. rewrite !not_elem_of_cons.
      pose proof (not_elem_of_nil x). intuition. }
    repeat (rewrite Forall_app || rewrite Forall_cons).
    split_and!; try (by eapply Forall_impl; eauto);
      apply (bool_decide_unpack _); by vm_compute.
  - unfold read_row.
    rewrite read_attributes_field, read_attributes_field, read_attributes_last by done.
    cbn [mapM app]. by rewrite !attribute_value_plain.
Qed.

(** ** The script, path by path *)

Ltac script_simpl :=
  cbv beta iota zeta delta
    [main step3 step4 step5 create_temp_table bulk_load merge cleanup verify
     step6 connect execute copy_from
     mbind Script_bind ret mret Script_ret print emit sys_exit uncaught
     cur_close conn_close write_failed_rows log set_db set_conn
     set_failed_rows];
  cbn [db failed_rows_csv conn trace fst snd
       server_execute server_copy students temp_students default].

Ltac script_cbn :=
  cbn [db failed_rows_csv conn trace fst snd mbind option_bind
       server_execute server_copy students temp_students default app].

Ltac world_eq :=
  cbn [negb db failed_rows_csv conn trace students temp_students];
  f_equal; f_equal; rewrite <- ?app_assoc; reflexivity.

Lemma run_outcome env w : run env w = outcome env w.
Proof.
  unfold run, main, outcome.
  destruct (read_csv env) as [df|] eqn:Hread; cycle 1.
  { unfold step1. rewrite Hread. script_simpl. world_eq. }
  destruct (has_required df) eqn:Hreq; cycle 1.
  { unfold step1. rewrite Hread. script_simpl. fold (has_required df).
    rewrite Hreq. world_eq. }
  unfold mbind at 1, Script_bind at 1. rewrite (step1_ok _ _ df) by done.
  script_simpl. cbn [negb].
  destruct (connect_ok env); script_cbn; [|world_eq].
  destruct (fault env (CallExecute create_table_query)); script_cbn; [world_eq|].
  destruct (fault env (CallExecute drop_temp_if_exists)); script_cbn; [world_eq|].
  destruct (fault env (CallExecute create_temp)); script_cbn; [world_eq|].
  destruct (fault env CallCopy); script_cbn;
    [destruct (fault env CallWriteFailedRows); world_eq|].
  destruct (copy_rows (to_csv false (cleaned df))) as [staged|]; script_cbn;
    [|destruct (fault env CallWriteFailedRows); world_eq].
  destruct (fault env (CallExecute insert_from_temp)); script_cbn; [world_eq|].
  destruct (insert_on_conflict [] staged (default [] (students (db w))))
    as [s1|]; script_cbn; [|world_eq].
  destruct (fault env (CallExecute drop_temp)); script_cbn;
    destruct (fault env (CallExecute select_count)); script_cbn;
    try case_bool_decide; world_eq.
Qed.

(** ** The upsert *)

Lemma upsert_keys r t :
  uni_roll <$> upsert r t
  = if decide (uni_roll r ∈ uni_roll <$> t) then uni_roll <$> t
    else (uni_roll <$> t) ++ [uni_roll r].
Proof.
  induction t as [|r' t IH]; cbn.
  - rewrite decide_False; [done|]. apply not_elem_of_nil.
  - destruct (decide (uni_roll r' = uni_roll r)) as [Heq|Hne]; cbn.
    + rewrite decide_True; [done|]. rewrite Heq. by left.
    + rewrite IH. destruct (decide (uni_roll r ∈ uni_roll <$> t)) as [Hin|Hnin].
      * rewrite decide_True; [done|]. by right.
      * rewrite decide_False; [done|].
        intros [?|?]%elem_of_cons; congruence.
Qed.

Lemma upsert_NoDup r t :
  NoDup (uni_roll <$> t) → NoDup (uni_roll <$> upsert r t).
Proof.
  intros Hnd. rewrite upsert_keys. case_decide; [done|].
  apply NoDup_app. split_and!; [done| |apply NoDup_singleton].
  intros k Hk ->%list_elem_of_singleton. done.
Qed.

Lemma length_upsert r t :
  length (upsert r t)
  = if decide (uni_roll r ∈ uni_roll <$> t) then length t else S (length t).
Proof.
  pose proof (f_equal length (upsert_keys r t)) as H.
  rewrite length_fmap in H. rewrite H.
  case_decide; rewrite ?length_app, length_fmap; cbn; lia.
Qed.

(** The proposed row is in the table afterwards, as it was proposed. *)
Lemma upsert_elem_of r t : r ∈ upsert r t.
Proof.
  induction t as [|r' t IH]; cbn; [by left|].
  case_decide as Heq; [|by right].
  rewrite Heq. destruct r. by left.
Qed.

(** The rows with another key are the same before and after. *)
Lemma upsert_other r t y :
  uni_roll y ≠ uni_roll r → y ∈ upsert r t ↔ y ∈ t.
Proof.
  intros Hne. induction t as [|r' t IH]; cbn.
  - rewrite list_elem_of_singleton. split; [by intros ->|].
    intros H. by apply elem_of_nil in H.
  - case_decide as Heq; rewrite !elem_of_cons.
    + split; (intros [->|?]; [|by right]); cbn in *; congruence.
    + by rewrite IH.
Qed.

Lemma insert_on_conflict_fresh touched src t t' k :
  insert_on_conflict touched src t = Some t' →
  k ∈ touched → k ∉ uni_roll <$> src.
Proof.
  revert touched t. induction src as [|r src IH]; intros touched t; cbn.
  - intros _ _. apply not_elem_of_nil.
  - repeat case_decide; try done. intros Hs Hk.
    apply not_elem_of_cons. split; [congruence|].
    eapply IH; [done|]. by right.
Qed.

(** A statement that succeeds proposed distinct keys, none of them
    [NULL]. *)
Lemma insert_on_conflict_keys touched src t t' :
  insert_on_conflict touched src t = Some t' →
  NoDup (uni_roll <$> src) ∧ None ∉ uni_roll <$> src.
Proof.
  revert touched t. induction src as [|r src IH]; intros touched t; cbn.
  - intros _. split; [constructor|apply not_elem_of_nil].
  - repeat case_decide; try done. intros Hs.
    destruct (IH _ _ Hs) as [Hnd Hnone]. split.
    + constructor; [|done].
      eapply insert_on_conflict_fresh; [done|]. by left.
    + apply not_elem_of_cons. split; [congruence|done].
Qed.

Lemma insert_on_conflict_NoDup touched src t t' :
  insert_on_conflict touched src t = Some t' →
  NoDup (uni_roll <$> t) → NoDup (uni_roll <$> t').
Proof.
  revert touched t. induction src as [|r src IH]; intros touched t; cbn.
  - by intros [= ->].
  - repeat case_decide; try done. intros Hs Hnd.
    eapply IH; [done|]. by apply upsert_NoDup.
Qed.

(** Every proposed row is in [students] afterwards, as it was proposed. *)
Lemma insert_on_conflict_proposed touched src t t' x :
  insert_on_conflict touched src t = Some t' → x ∈ src → x ∈ t'.
Proof.
  revert touched t. induction src as [|r src IH]; intros touched t; cbn.
  - intros _ H. by apply elem_of_nil in H.
  - repeat case_decide; try done. intros Hs [->|Hx]%elem_of_cons.
    + clear IH. assert (uni_roll r ∉ uni_roll <$> src) as Hfresh.
      { eapply insert_on_conflict_fresh; [done|]. by left. }
      assert (r ∈ upsert r t) as Hin by apply upsert_elem_of.
      revert Hs Hin Hfresh. generalize (upsert r t) (uni_roll r :: touched).
      induction src as [|r' src IH]; intros t0 tch; cbn.
      * by intros [= ->].
      * repeat case_decide; try done. rewrite not_elem_of_cons.
        intros Hs Hin [Hne Hfresh]. eapply IH; [done| |done].
        by apply upsert_other.
    + eauto.
Qed.

(** The rows of [students] whose key is not proposed stay as they are, and
    no other row appears. *)
Lemma insert_on_conflict_other touched src t t' y :
  insert_on_conflict touched src t = Some t' →
  uni_roll y ∉ uni_roll <$> src → y ∈ t' ↔ y ∈ t.
Proof.
  revert touched t. induction src as [|r src IH]; intros touched t; cbn.
  - by intros [= ->].
  - repeat case_decide; try done. rewrite not_elem_of_cons.
    intros Hs [Hne Hy]. rewrite (IH _ _ Hs Hy). by apply upsert_other.
Qed.

Lemma filter_ext_elem_of {A} (P Q : A → Prop) `{!∀ x, Decision (P x)}
    `{!∀ x, Decision (Q x)} (l : list A) :
  (∀ x, x ∈ l → P x ↔ Q x) → filter P l = filter Q l.
Proof.
  induction l as [|x l IH]; intros Hl; [done|].
  rewrite !filter_cons, IH by (intros; apply Hl; by right).
  assert (P x ↔ Q x) by (apply Hl; by left).
  destruct (decide (P x)), (decide (Q x)); tauto.
Qed.

Lemma insert_on_conflict_length touched src t t' :
  insert_on_conflict touched src t = Some t' →
  length t'
  = length t + length (filter (λ k, k ∉ uni_roll <$> t) (uni_roll <$> src)).
Proof.
  revert touched t. induction src as [|r src IH]; intros touched t;
    cbn [insert_on_conflict].
  - intros [= ->]. cbn. lia.
  - repeat case_decide; try done. intros Hs.
    assert (uni_roll r ∉ uni_roll <$> src) as Hfresh.
    { eapply insert_on_conflict_fresh; [done|]. by left. }
    rewrite (IH _ _ Hs), length_upsert, upsert_keys, fmap_cons, filter_cons.
    destruct (decide (uni_roll r ∈ uni_roll <$> t)) as [Hin|Hnin].
    + rewrite decide_False by (intros Hn; by apply Hn). done.
    + rewrite decide_True by done. cbn [length].
      rewrite (filter_ext_elem_of _ (λ k, k ∉ uni_roll <$> t)); [lia|].
      intros k Hk. rewrite not_elem_of_app, list_elem_of_singleton.
      split; [tauto|]. intros ?. split; [done|]. congruence.
Qed.

(** ** The shape of the cleaned frame *)

(** After the validation the frame has the three required columns and no
    other, in some order. *)
Lemma validated_columns_perm df :
  wf_frame df → has_required df = true →
  columns (validated df) ≡ₚ expected_columns.
Proof.
  intros [Hnd _] Hreq. unfold validated. case_bool_decide as Hlen; [done|].
  symmetry. apply submseteq_length_Permutation; [|lia].
  apply NoDup_submseteq; [apply expected_columns_NoDup|].
  intros c. by apply has_required_elem_of.
Qed.

Lemma cleaned_row_inv df r :
  wf_frame df → has_required df = true →
  r ∈ rows (cleaned df) →
  ∃ r0, r0 ∈ rows (validated df)
        ∧ length r0 = 3
        ∧ r = clean_row (columns (validated df)) r0.
Proof.
  intros Hwf Hreq. rewrite cleaned_eq by done. cbn [rows].
  intros [Hr _]%elem_of_kept.
  pose proof (validated_wf _ Hwf) as Hwfv.
  rewrite clean_rows in Hr by eauto using validated_has_required.
  cbn [rows] in Hr. apply list_elem_of_fmap in Hr as (r0 & -> & Hr0).
  exists r0. split_and!; [done| |done].
  destruct Hwfv as [_ Hlen]. rewrite Forall_forall in Hlen.
  rewrite (Hlen _ Hr0).
  by rewrite (Permutation_length (validated_columns_perm _ Hwf Hreq)).
Qed.

(** Every cell of a cleaned row holds the cleaned text of a cell of the
    width of its column. *)
Lemma clean_row_lookup cols r0 k x :
  NoDup cols → cols ≡ₚ expected_columns → length r0 = length cols →
  clean_row cols r0 !! k = Some x →
  ∃ c n, (c, n) ∈ widths ∧ cols !! k = Some c
         ∧ x = Str (clean_text n (row_get cols c r0)).
Proof.
  intros Hnd Hperm Hlen Hk.
  assert (k < length cols) as Hlt.
  { apply lookup_lt_Some in Hk. rewrite length_clean_row in Hk. lia. }
  destruct (lookup_lt_is_Some_2 cols k Hlt) as [c Hc].
  assert (c ∈ expected_columns) as Hexp.
  { rewrite <- Hperm. by eapply list_elem_of_lookup_2. }
  pose proof Hexp as [n Hn]%widths_expected.
  exists c, n. split_and!; [done..|].
  rewrite <- (row_get_clean_row cols r0 c n); [|done| |done].
  - unfold row_get. rewrite (col_index_NoDup c cols k) by done.
    by rewrite Hk.
  - by eapply list_elem_of_lookup_2.
Qed.

Lemma cleaned_cell_inv df r k x :
  wf_frame df → has_required df = true →
  r ∈ rows (cleaned df) → r !! k = Some x →
  ∃ n v, x = Str (clean_text n v).
Proof.
  intros Hwf Hreq Hr Hk.
  destruct (cleaned_row_inv df r) as (r0 & Hr0 & Hlen & ->); [done..|].
  pose proof (validated_columns_perm _ Hwf Hreq) as Hperm.
  destruct (clean_row_lookup (columns (validated df)) r0 k x)
    as (c & n & _ & _ & ->); eauto.
  - by destruct (validated_wf _ Hwf).
  - by rewrite (Permutation_length Hperm).
Qed.

(** ** The COPY of a plain frame *)

Lemma plain_frame_Forall df :
  plain_frame df = true ↔
  Forall (Forall (λ c, Forall (λ a, a ∉ special_chars) (cell_text c))) (rows df).
Proof.
  unfold plain_frame. rewrite forallb_forall, Forall_forall.
  setoid_rewrite forallb_forall. setoid_rewrite Forall_forall.
  setoid_rewrite <- list_elem_of_In. setoid_rewrite plain_Forall.
  setoid_rewrite Forall_forall. done.
Qed.

Lemma stage_row_plain (r : list cell) :
  length r = 3 →
  Forall (λ c, Forall (λ a, a ∉ special_chars) (cell_text c)) r →
  ∃ line, writerow (cell_text <$> r) = line ++ [LF]
          ∧ Forall (λ c, c ∉ [backslash; LF; CR; NUL]) line
          ∧ read_row line = stage_row r.
Proof.
  intros Hlen Hr.
  destruct r as [|a [|b [|c [|]]]]; try done.
  apply Forall_cons in Hr as [Ha Hr]. apply Forall_cons in Hr as [Hb Hr].
  apply Forall_cons in Hr as [Hc _].
  destruct (writerow_plain (cell_text a) (cell_text b) (cell_text c))
    as (Hw & Hl & Hread); [done..|].
  eexists. split_and!; [exact Hw|exact Hl|exact Hread].
Qed.

Lemma copy_rows_plain (l : list (list cell)) :
  Forall (λ r, length r = 3) l →
  Forall (Forall (λ c, Forall (λ a, a ∉ special_chars) (cell_text c))) l →
  copy_rows (mjoin ((λ r, writerow (cell_text <$> r)) <$> l)) = mapM stage_row l.
Proof.
  intros Hlen Hplain.
  assert (∃ lines,
    (λ r, writerow (cell_text <$> r)) <$> l = (λ x, x ++ [LF]) <$> lines
    ∧ Forall (Forall (λ c, c ∉ [backslash; LF; CR; NUL])) lines
    ∧ mapM read_row lines = mapM stage_row l) as (lines & -> & Hsafe & <-).
  { induction l as [|r l IH].
    - by exists [].
    - apply Forall_cons in Hlen as [Hr Hlen].
      apply Forall_cons in Hplain as [Hp Hplain].
      destruct (IH Hlen Hplain) as (lines & Heq & Hsafe & Hm).
      destruct (stage_row_plain r Hr Hp) as (line & Hw & Hline & Hrow).
      exists (line :: lines). rewrite !fmap_cons, Heq, Hw.
      split_and!; [done|by constructor|].
      cbn. by rewrite Hrow, Hm. }
  unfold copy_rows. rewrite read_lines_lines by eauto. done.
Qed.

(** ** Step 1: the cleaned frame *)

Lemma duplicates_reported df :
  has_required df = true →
  len (cleaned df) < len (clean (validated df)) →
  Print (WarnDuplicates (len (clean (validated df)) - len (cleaned df)))
  ∈ step1_events df.
Proof.
  intros Hreq Hlt. unfold step1_events. cbn zeta.
  rewrite !elem_of_app. right. right. left.
  pose proof (clean_columns _ (validated_has_required _ Hreq)) as Hc.
  pose proof (len_discarded df Hreq) as Hd.
  assert (rows (getitem_mask (clean (validated df))
                 (duplicated (getitem (clean (validated df)) (py "uni_roll"))))
          = discarded (row_get (columns (validated df)) (py "uni_roll")) []
              (rows (clean (validated df)))) as Hrows.
  { unfold getitem_mask, duplicated, getitem. cbn [rows]. by rewrite Hc. }
  assert (len (getitem_mask (clean (validated df))
                 (duplicated (getitem (clean (validated df)) (py "uni_roll"))))
          = len (clean (validated df)) - len (cleaned df)) as Hlen.
  { unfold len at 1. by rewrite Hrows. }
  rewrite Hlen. unfold empty. rewrite Hrows. cbn [getitem_mask columns].
  rewrite Hc, (bool_decide_eq_false_2 (columns _ = []))
    by (by apply validated_columns_nonempty).
  rewrite orb_false_r, bool_decide_eq_false_2; [cbn; by left|].
  intros Hnil. rewrite Hnil in Hd. cbn [length] in Hd. lia.
Qed.

Lemma cleaned_uni_roll_NoDup df :
  has_required df = true → NoDup (getitem (cleaned df) (py "uni_roll")).
Proof.
  intros Hreq. unfold getitem. rewrite (cleaned_eq df Hreq). cbn [rows columns].
  apply kept_NoDup.
Qed.

(** C2. Rows that share a cleaned [uni_roll]: the frame the script goes on
    with has no repeated [uni_roll], has every [uni_roll] of the frame
    before, keeps the order of the rows, each kept row is the first row
    with its [uni_roll], and step 1 prints the number of discarded rows. *)
Theorem C2_first_occurrence_is_kept env w df :
  read_csv env = Some df → has_required df = true →
  let before := clean (validated df) in
  let after := cleaned df in
  let key := row_get (columns before) (py "uni_roll") in
  NoDup (getitem after (py "uni_roll"))
  ∧ (∀ k, k ∈ getitem before (py "uni_roll") ↔ k ∈ getitem after (py "uni_roll"))
  ∧ rows after `sublist_of` rows before
  ∧ (∀ r, r ∈ rows after →
       ∃ l1 l2, rows before = l1 ++ r :: l2 ∧ key r ∉ key <$> l1)
  ∧ ∃ evs, step1 env w = (Ret after, log evs w)
           ∧ (len after < len before →
              Print (WarnDuplicates (len before - len after)) ∈ evs).
Proof.
  intros Hread Hreq. cbv zeta.
  pose proof (clean_columns _ (validated_has_required _ Hreq)) as Hc.
  split_and!; [..|exists (step1_events df); split;
                   [by apply step1_ok|by apply duplicates_reported]];
    unfold getitem; rewrite (cleaned_eq df Hreq); cbn [rows columns];
    rewrite ?Hc;
    set (key := row_get (columns (validated df)) (py "uni_roll")).
  - apply kept_NoDup.
  - intros k. split.
    + intros Hk. apply kept_complete; [done|apply not_elem_of_nil].
    + intros (r & -> & [Hr _]%elem_of_kept)%list_elem_of_fmap.
      by apply list_elem_of_fmap_2.
  - apply kept_sublist.
  - intros r Hr. by eapply kept_first.
Qed.

Lemma C2_witness :
  NoDup (getitem (cleaned df_dup) (py "uni_roll")).
Proof.
  exact (proj1 (C2_first_occurrence_is_kept
                  (mkEnv (Some df_dup) true no_fault) fresh_world df_dup
                  eq_refl eq_refl)).
Defined.

(** C1 (the code keeps the row).  A row whose [name] is missing: line 37
    turns the missing value into the text [nan] before line 40 looks for
    missing values, so the row stays in the cleaned frame and is stored in
    [students]. *)
Theorem C1_row_with_missing_name_is_kept :
  let out := run (mkEnv (Some df_missing) true no_fault) fresh_world in
  rows (cleaned df_missing) = [[Str (py "nan"); Str (py "R1"); Str (py "CSE")]]
  ∧ out.1 = 0
  ∧ students (db out.2)
    = Some [mkStudent (Some (py "nan")) (Some (py "R1")) (Some (py "CSE"))].
Proof. by vm_compute. Qed.

(** ** The run: failures and warnings *)

Lemma step1_events_no_database_call df :
  Forall (λ e, is_database_call e = false) (step1_events df).
Proof.
  unfold step1_events. cbv zeta. rewrite !Forall_app. split_and!.
  - by repeat constructor.
  - case_bool_decide; by repeat constructor.
  - destruct (negb _); by repeat constructor.
  - by repeat constructor.
Qed.

(** C6. When [psycopg2.connect] raises, the script exits with status 1,
    the database is as it was, and no statement and no COPY was sent. *)
Theorem C6_connection_failure_exits_before_any_call env w :
  connect_ok env = false →
  (run env w).1 = 1
  ∧ db (run env w).2 = db w
  ∧ ∃ evs, trace (run env w).2 = trace w ++ evs
           ∧ Forall (λ e, is_database_call e = false) evs.
Proof.
  intros Hconn. rewrite run_outcome. unfold outcome. rewrite Hconn.
  destruct (read_csv env) as [df|]; [destruct (has_required df)|];
    cbn [negb fst snd db trace]; (split_and!; [done..|]);
    eexists; (split; [reflexivity|]).
  - apply Forall_app. split; [apply step1_events_no_database_call|].
    by repeat constructor.
  - by repeat constructor.
  - by repeat constructor.
Qed.

Lemma C6_witness :
  (run (mkEnv (Some df_dup) false no_fault) fresh_world).1 = 1.
Proof.
  exact (proj1 (C6_connection_failure_exits_before_any_call
                  (mkEnv (Some df_dup) false no_fault) fresh_world eq_refl)).
Defined.

Lemma to_csv_header df :
  to_csv true df = writerow (columns df) ++ to_csv false df.
Proof. reflexivity. Qed.

(** When the COPY raises (the driver fails, or the server rejects the
    buffer) and the recovery file can be written: the whole cleaned frame
    is written to [failed_rows.csv] as CSV text with a header line, nothing
    was loaded, the cursor and the connection are closed and the script
    exits with status 1. *)
Lemma copy_failure_writes_recovery_file env w df :
  read_csv env = Some df → has_required df = true →
  connect_ok env = true →
  fault env (CallExecute create_table_query) = false →
  fault env (CallExecute drop_temp_if_exists) = false →
  fault env (CallExecute create_temp) = false →
  fault env CallCopy = true ∨ copy_rows (to_csv false (cleaned df)) = None →
  fault env CallWriteFailedRows = false →
  (run env w).1 = 1
  ∧ failed_rows_csv (run env w).2
    = Some (writerow (columns (cleaned df)) ++ to_csv false (cleaned df))
  ∧ temp_students (db (run env w).2) = Some []
  ∧ conn (run env w).2 = ConnClosed
  ∧ ∃ evs, trace (run env w).2
           = trace w ++ evs ++ [Print ErrorDuringCopy; WriteFailedRows;
                                Print FailedDataSaved; CursorClose; ConnClose].
Proof.
  intros Hread Hreq Hconn F1 F2 F3 Hcopy Hwrite.
  rewrite run_outcome. unfold outcome.
  rewrite Hread, Hreq, Hconn, F1, F2, F3, Hwrite. cbn [negb].
  assert ((if fault env CallCopy then None
           else copy_rows (to_csv false (cleaned df))) = None) as ->.
  { destruct Hcopy as [-> | ->]; [done|by destruct (fault env CallCopy)]. }
  cbn [fst snd db failed_rows_csv conn trace temp_students].
  rewrite to_csv_header.
  split_and!; [reflexivity..|].
  eexists. by f_equal.
Qed.

(** The recovery file of a frame whose name holds a backslash: the header,
    then the row with the backslash as it is, where line 21 reads the
    input with the backslash as escape character. *)
Example recovery_file_keeps_backslash :
  failed_rows_csv
    (run (mkEnv (Some df_backslash) true copy_fault) fresh_world).2
  = Some (py "name,uni_roll,branch" ++ [LF] ++ py "A\B,R1,X" ++ [LF]).
Proof. by vm_compute. Qed.

(** Step 1 only prints, and not the line about the saved data. *)
Lemma step1_events_print df :
  Forall (λ e, ∃ m, e = Print m ∧ m ≠ FailedDataSaved) (step1_events df).
Proof.
  unfold step1_events. cbv zeta. rewrite !Forall_app. split_and!.
  - repeat constructor; by eexists.
  - case_bool_decide; repeat constructor; by eexists.
  - destruct (negb _); repeat constructor; by eexists.
  - repeat constructor; by eexists.
Qed.

(** Membership in a list of events written with [++] and [::], case by
    case; the events of step 1 are left as they are. *)
Ltac split_elem H :=
  lazymatch type of H with
  | _ ∈ step1_events _ => idtac
  | _ ∈ _ ++ _ => apply elem_of_app in H as [H|H]; [split_elem H | split_elem H]
  | _ ∈ _ :: _ => apply elem_of_cons in H as [H|H]; [ | split_elem H]
  | _ => idtac
  end.

(** C5. The handler of the COPY writes [failed_rows.csv] before it closes
    the cursor and the connection, and nothing guards the write.  When the
    COPY raises and the write raises too (the directory cannot be
    written), the script ends there with status 1: nothing is saved, the
    line about the saved data is not printed, and neither the cursor nor
    the connection is closed. *)
Theorem C5_recovery_write_failure_leaves_connection_open env w df :
  read_csv env = Some df → has_required df = true →
  connect_ok env = true →
  fault env (CallExecute create_table_query) = false →
  fault env (CallExecute drop_temp_if_exists) = false →
  fault env (CallExecute create_temp) = false →
  fault env CallCopy = true ∨ copy_rows (to_csv false (cleaned df)) = None →
  fault env CallWriteFailedRows = true →
  (run env w).1 = 1
  ∧ failed_rows_csv (run env w).2 = failed_rows_csv w
  ∧ conn (run env w).2 = ConnOpen
  ∧ ∃ evs, trace (run env w).2
           = trace w ++ evs ++ [Print ErrorDuringCopy; WriteFailedRows]
           ∧ (CursorClose ∉ evs) ∧ (ConnClose ∉ evs)
           ∧ (Print FailedDataSaved ∉ evs).
Proof.
  intros Hread Hreq Hconn F1 F2 F3 Hcopy Hwrite.
  rewrite run_outcome. unfold outcome.
  rewrite Hread, Hreq, Hconn, F1, F2, F3, Hwrite. cbn [negb].
  assert ((if fault env CallCopy then None
           else copy_rows (to_csv false (cleaned df))) = None) as ->.
  { destruct Hcopy as [-> | ->]; [done|by destruct (fault env CallCopy)]. }
  cbn [fst snd db failed_rows_csv conn trace].
  split_and!; [reflexivity..|].
  eexists. split; [reflexivity|].
  pose proof (step1_events_print df) as Hp. rewrite Forall_forall in Hp.
  split_and!; intros H; split_elem H; try discriminate;
    try (by apply elem_of_nil in H);
    by destruct (Hp _ H) as (m & [= <-] & ?).
Qed.

Lemma C5_witness :
  conn (run (mkEnv (Some df_dup) true copy_and_write_fault) fresh_world).2
  = ConnOpen.
Proof.
  exact (proj1 (proj2 (proj2
           (C5_recovery_write_failure_leaves_connection_open
              (mkEnv (Some df_dup) true copy_and_write_fault) fresh_world
              df_dup eq_refl eq_refl eq_refl eq_refl eq_refl eq_refl
              (or_introl eq_refl) eq_refl)))).
Defined.

(** C9. Once the upsert went through, a failure to drop the staging table
    and a wrong or unavailable row count only print a warning: the script
    closes the cursor and the connection and runs to its end, with exit
    status 0. *)
Theorem C9_warnings_do_not_abort env w df staged s1 :
  read_csv env = Some df → has_required df = true →
  connect_ok env = true →
  fault env (CallExecute create_table_query) = false →
  fault env (CallExecute drop_temp_if_exists) = false →
  fault env (CallExecute create_temp) = false →
  fault env CallCopy = false →
  copy_rows (to_csv false (cleaned df)) = Some staged →
  fault env (CallExecute insert_from_temp) = false →
  insert_on_conflict [] staged (default [] (students (db w))) = Some s1 →
  (run env w).1 = 0
  ∧ conn (run env w).2 = ConnClosed
  ∧ students (db (run env w).2) = Some s1
  ∧ ∃ evs,
      trace (run env w).2
      = trace w ++ evs ++ [CursorClose; ConnClose;
                           Print ConnectionClosed; Print TotalTime]
      ∧ (fault env (CallExecute drop_temp) = true → Print WarnDropTemp ∈ evs)
      ∧ (fault env (CallExecute select_count) = true → Print WarnVerify ∈ evs)
      ∧ (fault env (CallExecute select_count) = false →
         length s1 ≠ len (cleaned df) →
         Print (WarnRowCount (len (cleaned df)) (length s1)) ∈ evs).
Proof.
  intros Hread Hreq Hconn F1 F2 F3 F4 Hcopy F5 Hins.
  rewrite run_outcome. unfold outcome.
  rewrite Hread, Hreq, Hconn, F1, F2, F3, F4, Hcopy, F5, Hins. cbn [negb].
  cbn [fst snd db failed_rows_csv conn trace students].
  split_and!; [reflexivity..|].
  set (e7 := _ ++ [Print DataTransferred; _; _; _]).
  set (e8 := if fault env (CallExecute select_count) then _ else _).
  exists (e7 ++ e8). split_and!.
  - by rewrite <- !app_assoc.
  - intros Hf. apply elem_of_app. left. unfold e7. rewrite Hf. cbn [negb].
    apply elem_of_app. right. right. right. left.
  - intros Hf. apply elem_of_app. right. unfold e8. rewrite Hf. left.
  - intros Hf Hne. apply elem_of_app. right. unfold e8. rewrite Hf.
    rewrite bool_decide_eq_true_2 by done. right. left.
Qed.

Lemma C9_witness :
  (run (mkEnv (Some df_dup) true cleanup_fault) fresh_world).1 = 0.
Proof.
  refine (proj1 (C9_warnings_do_not_abort
                   (mkEnv (Some df_dup) true cleanup_fault) fresh_world df_dup
                   staged_dup staged_dup _ _ _ _ _ _ _ _ _ _));
    vm_compute; reflexivity.
Defined.

(** C8. The file with the columns [name, uni_roll, branch, extra_col] and
    the row [A,B / R1 / X / ignored]: the extra column is dropped, the
    comma of the name is removed, the cleaned frame is the single row
    [AB / R1 / X], and a run where nothing fails stores that row in
    [students] (as the only row when the table was empty or absent). *)
Theorem C8_extra_column_and_comma (w : World) :
  let env := mkEnv (Some df_extra) true no_fault in
  let row := mkStudent (Some (py "AB")) (Some (py "R1")) (Some (py "X")) in
  cleaned df_extra
  = mkDataFrame expected_columns [[Str (py "AB"); Str (py "R1"); Str (py "X")]]
  ∧ (run env w).1 = 0
  ∧ students (db (run env w).2) = Some (upsert row (default [] (students (db w))))
  ∧ students (db (run env fresh_world).2) = Some [row].
Proof.
  cbv zeta.
  assert (cleaned df_extra
          = mkDataFrame expected_columns
              [[Str (py "AB"); Str (py "R1"); Str (py "X")]]) as Hclean
    by (by vm_compute).
  split_and!; [done| | |by vm_compute];
    rewrite run_outcome; unfold outcome; cbn [read_csv connect_ok fault no_fault];
    change (has_required df_extra) with true; cbn [negb];
    rewrite Hclean;
    change (copy_rows _) with
      (Some [mkStudent (Some (py "AB")) (Some (py "R1")) (Some (py "X"))]);
    reflexivity.
Qed.

(** ** The upsert of the staged rows *)

Lemma NoDup_key_inj (t : list Student) x y :
  NoDup (uni_roll <$> t) → x ∈ t → y ∈ t → uni_roll x = uni_roll y → x = y.
Proof.
  intros Hnd Hx Hy Heq.
  apply list_elem_of_lookup in Hx as [i Hi].
  apply list_elem_of_lookup in Hy as [j Hj].
  assert (i = j) as ->.
  { eapply NoDup_lookup; [exact Hnd|..].
    - by rewrite list_lookup_fmap, Hi.
    - by rewrite list_lookup_fmap, Hj, Heq. }
  congruence.
Qed.

(** C4. The upsert keeps [uni_roll] unique in [students]; a row of
    [students] whose [uni_roll] is among the staged rows carries the
    [name] and [branch] of the staged row (the row loaded last for that
    [uni_roll]); the other rows of [students] are the ones it held
    before. *)
Theorem C4_merge_keeps_uni_roll_unique d d' res s :
  students d = Some s → NoDup (uni_roll <$> s) →
  server_execute insert_from_temp d = Some (d', res) →
  ∃ t s', temp_students d = Some t ∧ students d' = Some s'
    ∧ NoDup (uni_roll <$> s')
    ∧ (∀ x y, x ∈ t → y ∈ s' → uni_roll y = uni_roll x →
         name y = name x ∧ branch y = branch x)
    ∧ (∀ x, x ∈ t → ∃ y, y ∈ s' ∧ uni_roll y = uni_roll x)
    ∧ (∀ y, uni_roll y ∉ uni_roll <$> t → y ∈ s' ↔ y ∈ s).
Proof.
  intros Hs Hnd. cbn [server_execute]. rewrite Hs. cbn [mbind option_bind].
  destruct (temp_students d) as [t|]; [|done]. cbn [mbind option_bind].
  destruct (insert_on_conflict [] t s) as [s'|] eqn:Hins; [|done].
  cbn [mbind option_bind]. intros [= <- _].
  exists t, s'. cbn [students]. split_and!; [done..| | | |].
  - by eapply insert_on_conflict_NoDup.
  - intros x y Hx Hy Heq.
    assert (y = x) as ->; [|done].
    eapply NoDup_key_inj; [by eapply insert_on_conflict_NoDup|done| |done].
    by eapply insert_on_conflict_proposed.
  - intros x Hx. exists x. split; [|done].
    by eapply insert_on_conflict_proposed.
  - intros y Hy. by eapply insert_on_conflict_other.
Qed.

Lemma C4_witness :
  ∃ t s', temp_students db_merge = Some t
    ∧ students (mkDatabase
        (Some [mkStudent (Some (py "Ann B")) (Some (py "R1")) (Some (py "IT"));
               mkStudent (Some (py "Dan")) (Some (py "R9")) (Some (py "EE"));
               mkStudent (Some (py "Bob")) (Some (py "R2")) (Some (py "ECE"))])
        (temp_students db_merge)) = Some s'
    ∧ NoDup (uni_roll <$> s')
    ∧ (∀ x y, x ∈ t → y ∈ s' → uni_roll y = uni_roll x →
         name y = name x ∧ branch y = branch x)
    ∧ (∀ x, x ∈ t → ∃ y, y ∈ s' ∧ uni_roll y = uni_roll x)
    ∧ (∀ y, uni_roll y ∉ uni_roll <$> t → y ∈ s' ↔
            y ∈ [mkStudent (Some (py "Ann")) (Some (py "R1")) (Some (py "CSE"));
                 mkStudent (Some (py "Dan")) (Some (py "R9")) (Some (py "EE"))]).
Proof.
  apply (C4_merge_keeps_uni_roll_unique db_merge _ None).
  - reflexivity.
  - apply (bool_decide_unpack _). vm_compute. exact I.
  - vm_compute. reflexivity.
Defined.

(** ** Two runs *)

(** A run that exits with status 0 staged the whole buffer and merged it. *)
Lemma run_exit_0 env w :
  (run env w).1 = 0 →
  ∃ df staged s1,
    read_csv env = Some df ∧ has_required df = true
    ∧ copy_rows (to_csv false (cleaned df)) = Some staged
    ∧ insert_on_conflict [] staged (default [] (students (db w))) = Some s1
    ∧ students (db (run env w).2) = Some s1.
Proof.
  rewrite run_outcome. unfold outcome.
  destruct (read_csv env) as [df|] eqn:Hread; [|done].
  destruct (has_required df) eqn:Hreq; [|done]. cbn [negb].
  destruct (connect_ok env); [|done]. cbn [negb].
  destruct (fault env (CallExecute create_table_query)); [done|].
  destruct (fault env (CallExecute drop_temp_if_exists)); [done|].
  destruct (fault env (CallExecute create_temp)); [done|].
  destruct (fault env CallCopy);
    [by destruct (fault env CallWriteFailedRows)|].
  destruct (copy_rows (to_csv false (cleaned df))) as [staged|] eqn:Hcopy;
    [|by destruct (fault env CallWriteFailedRows)].
  destruct (fault env (CallExecute insert_from_temp)); [done|].
  destruct (insert_on_conflict [] staged (default [] (students (db w))))
    as [s1|] eqn:Hins; [|done].
  intros _. exists df, staged, s1. split_and!; done.
Qed.

Lemma length_remove_dups_NoDup {A} `{EqDecision A} (l : list A) :
  NoDup l → length (remove_dups l) = length l.
Proof.
  intros Hnd. apply Permutation_length, NoDup_Permutation;
    [apply NoDup_remove_dups|done|apply elem_of_remove_dups].
Qed.

Lemma filter_all {A} (P : A → Prop) `{!∀ x, Decision (P x)} (l : list A) :
  (∀ x, x ∈ l → P x) → filter P l = l.
Proof.
  induction l as [|x l IH]; intros Hl; [done|].
  rewrite filter_cons, decide_True by (apply Hl; left).
  f_equal. apply IH. intros y Hy. apply Hl. by right.
Qed.

Lemma filter_none {A} (P : A → Prop) `{!∀ x, Decision (P x)} (l : list A) :
  (∀ x, x ∈ l → ¬ P x) → filter P l = [].
Proof.
  induction l as [|x l IH]; intros Hl; [done|].
  rewrite filter_cons, decide_False by (apply Hl; left).
  apply IH. intros y Hy. apply Hl. by right.
Qed.

(** The rows a plain cleaned frame stages: one per row of the frame. *)
Lemma copy_rows_cleaned df staged :
  wf_frame df → has_required df = true →
  plain_frame (cleaned df) = true →
  copy_rows (to_csv false (cleaned df)) = Some staged →
  mapM stage_row (rows (cleaned df)) = Some staged.
Proof.
  intros Hwf Hreq Hplain <-. symmetry. apply copy_rows_plain.
  - apply Forall_forall. intros r Hr.
    destruct (cleaned_row_inv df r) as (r0 & _ & Hlen & ->); [done..|].
    by rewrite length_clean_row.
  - by apply plain_frame_Forall.
Qed.

(** C3 (amended).  Two runs on the same file that both exit with status 0,
    the first one starting from an absent or empty [students], on a
    cleaned frame whose cells hold no backslash, line break or NUL: after
    the first and after the second run [students] holds as many rows as
    the cleaned frame has distinct [uni_roll] values. *)
Theorem C3_second_run_does_not_add_rows env1 env2 w df :
  read_csv env1 = Some df → read_csv env2 = Some df →
  wf_frame df →
  default [] (students (db w)) = [] →
  plain_frame (cleaned df) = true →
  (run env1 w).1 = 0 →
  (run env2 (run env1 w).2).1 = 0 →
  let n := length (remove_dups (getitem (cleaned df) (py "uni_roll"))) in
  length <$> students (db (run env1 w).2) = Some n
  ∧ length <$> students (db (run env2 (run env1 w).2).2) = Some n.
Proof.
  intros Hread1 Hread2 Hwf Hempty Hplain H1 H2.
  destruct (run_exit_0 _ _ H1) as (df1 & staged & s1 & Hr1 & Hreq & Hc1 & Hi1 & Hs1).
  destruct (run_exit_0 _ _ H2) as (df2 & staged2 & s2 & Hr2 & _ & Hc2 & Hi2 & Hs2).
  assert (df1 = df) as -> by congruence.
  assert (df2 = df) as -> by congruence.
  assert (staged2 = staged) as -> by congruence.
  rewrite Hs1 in Hi2. cbn [default] in Hi2. rewrite Hempty in Hi1.
  assert (n_eq : length (remove_dups (getitem (cleaned df) (py "uni_roll")))
                 = length staged).
  { rewrite length_remove_dups_NoDup.
    - unfold getitem. rewrite length_fmap.
      by apply (length_mapM stage_row), copy_rows_cleaned.
    - by apply cleaned_uni_roll_NoDup. }
  assert (length s1 = length staged) as Hl1.
  { rewrite (insert_on_conflict_length _ _ _ _ Hi1). cbn [fmap list_fmap length].
    rewrite filter_all by (intros; apply not_elem_of_nil).
    by rewrite length_fmap. }
  assert (length s2 = length s1) as Hl2.
  { rewrite (insert_on_conflict_length _ _ _ _ Hi2).
    rewrite filter_none; [cbn; lia|].
    intros k (x & -> & Hx)%list_elem_of_fmap Hn.
    apply Hn, list_elem_of_fmap_2.
    by eapply insert_on_conflict_proposed. }
  cbv zeta. rewrite Hs1, Hs2. split; unfold fmap, option_fmap, option_map;
    f_equal; lia.
Qed.

Lemma C3_witness :
  length <$> students
    (db (run (mkEnv (Some df_dup) true no_fault)
           (run (mkEnv (Some df_dup) true no_fault) fresh_world).2).2)
  = Some 2.
Proof.
  refine (proj2 (C3_second_run_does_not_add_rows
                   (mkEnv (Some df_dup) true no_fault)
                   (mkEnv (Some df_dup) true no_fault)
                   fresh_world df_dup eq_refl eq_refl _ eq_refl _ _ _)).
  - split; apply (bool_decide_unpack _); vm_compute; exact I.
  - vm_compute. reflexivity.
  - vm_compute. reflexivity.
  - vm_compute. reflexivity.
Defined.

(** C3 as it is stated fails when [students] already holds a row for
    another [uni_roll]: the file has two distinct [uni_roll] values, and
    after two runs the table holds three rows. *)
Lemma C3_counterexample :
  let env := mkEnv (Some df_dup) true no_fault in
  let first := run env world_with_other_row in
  let second := run env first.2 in
  first.1 = 0 ∧ second.1 = 0
  ∧ length (remove_dups (getitem (cleaned df_dup) (py "uni_roll"))) = 2
  ∧ length <$> students (db second.2) = Some 3
  ∧ length <$> students (db second.2)
    ≠ Some (length (remove_dups (getitem (cleaned df_dup) (py "uni_roll")))).
Proof. vm_compute. split_and!; [reflexivity..|discriminate]. Qed.

(** ** The values of the cleaned rows *)

Lemma validated_rows df : rows (validated df) = validated_row df <$> rows df.
Proof.
  unfold validated, validated_row. case_bool_decide; cbn [select rows].
  - done.
  - by rewrite list_fmap_id.
Qed.

Lemma row_get_validated df r c :
  c ∈ expected_columns →
  row_get (columns (validated df)) c (validated_row df r)
  = row_get (columns df) c r.
Proof.
  intros Hc. unfold validated, validated_row. case_bool_decide; [|done].
  cbn [select columns]. unfold expected_columns in *.
  rewrite !elem_of_cons, elem_of_nil in Hc.
  destruct Hc as [->|[->|[->|[]]]]; reflexivity.
Qed.

(** The cleaned rows are the rows read, each with its three cells
    cleaned, less the duplicates. *)
Lemma cleaned_row_source df r :
  wf_frame df → has_required df = true →
  r ∈ rows (cleaned df) →
  ∃ r0, r0 ∈ rows df ∧ length r = 3 ∧
    ∀ c n, (c, n) ∈ widths →
      row_get (columns (cleaned df)) c r
      = Str (clean_text n (row_get (columns df) c r0)).
Proof.
  intros Hwf Hreq Hr.
  destruct (cleaned_row_inv df r Hwf Hreq Hr) as (r' & Hr' & Hlen & ->).
  rewrite validated_rows in Hr'.
  apply list_elem_of_fmap in Hr' as (r0 & -> & Hr0).
  exists r0. split_and!; [done|by rewrite length_clean_row|].
  intros c n Hcn.
  assert (c ∈ expected_columns) as Hc by (apply widths_expected; eauto).
  rewrite (cleaned_eq df Hreq). cbn [columns].
  rewrite (row_get_clean_row _ _ c n), row_get_validated; [done..| |].
  - eapply has_required_elem_of; [by apply validated_has_required|done].
  - by rewrite Hlen, (Permutation_length (validated_columns_perm _ Hwf Hreq)).
Qed.

Lemma mapM_fmap_Some {A B} (f : A → option B) (g : A → B) (l : list A) :
  (∀ x, x ∈ l → f x = Some (g x)) → mapM f l = Some (g <$> l).
Proof.
  induction l as [|x l IH]; intros Hl; [done|].
  cbn. rewrite Hl by left. cbn. rewrite IH; [done|].
  intros y Hy. apply Hl. by right.
Qed.

Lemma varchar_fits n s : length s ≤ n → varchar n (Some s) = Some (Some s).
Proof. intros H. unfold varchar. by rewrite bool_decide_eq_true_2. Qed.

(** With the columns in the order of the table, a cleaned row is staged
    under its labels. *)
Lemma stage_row_cleaned df r :
  wf_frame df → has_required df = true →
  columns (cleaned df) = expected_columns →
  r ∈ rows (cleaned df) →
  stage_row r = Some (student_of expected_columns r).
Proof.
  intros Hwf Hreq Hcols Hr.
  destruct (cleaned_row_source df r Hwf Hreq Hr) as (r0 & _ & Hlen & Hval).
  rewrite Hcols in Hval.
  destruct r as [|a [|b [|c [|]]]]; try done.
  pose proof (Hval (py "name") 255) as Ha.
  pose proof (Hval (py "uni_roll") 100) as Hb.
  pose proof (Hval (py "branch") 50) as Hc.
  change (row_get expected_columns (py "name") [a; b; c]) with a in Ha.
  change (row_get expected_columns (py "uni_roll") [a; b; c]) with b in Hb.
  change (row_get expected_columns (py "branch") [a; b; c]) with c in Hc.
  rewrite Ha, Hb, Hc by (unfold widths; rewrite !elem_of_cons; tauto).
  unfold stage_row, student_of. cbn [cell_text].
  rewrite !varchar_fits by apply length_clean_text. reflexivity.
Qed.

(** ** The round trip through the buffer and the COPY *)

Lemma writerow_plain_no_quote (r : list cell) :
  length r = 3 →
  Forall (λ c, Forall (λ a, a ∉ special_chars) (cell_text c)) r →
  dquote ∉ writerow (cell_text <$> r).
Proof.
  intros Hlen Hr.
  destruct r as [|a [|b [|c [|]]]]; try done.
  apply Forall_cons in Hr as [Ha Hr]. apply Forall_cons in Hr as [Hb Hr].
  apply Forall_cons in Hr as [Hc _].
  destruct (writerow_plain (cell_text a) (cell_text b) (cell_text c))
    as (Hw & _ & _); [done..|].
  cbn [fmap list_fmap]. rewrite Hw.
  assert (∀ s, Forall (λ a, a ∉ special_chars) s → dquote ∉ s) as Hq.
  { intros s Hs Hin. rewrite Forall_forall in Hs.
    apply Hs, not_special in Hin. tauto. }
  rewrite !elem_of_app, !elem_of_cons, !elem_of_app, !elem_of_cons, elem_of_nil.
  assert (dquote ≠ comma) as H1 by (intros H; vm_compute in H; discriminate).
  assert (dquote ≠ LF) as H2 by (intros H; vm_compute in H; discriminate).
  intros [[?|[?|[?|[?|?]]]]|[?|[]]]; try done;
    [by apply (Hq _ Ha)|by apply (Hq _ Hb)|by apply (Hq _ Hc)].
Qed.

Lemma to_csv_plain_no_quote df :
  Forall (λ r, length r = 3) (rows df) →
  plain_frame df = true →
  dquote ∉ to_csv false df.
Proof.
  intros Hlen Hplain%plain_frame_Forall. unfold to_csv. cbn [app].
  induction (rows df) as [|r l IH]; [apply not_elem_of_nil|].
  apply Forall_cons in Hlen as [Hr Hl]. apply Forall_cons in Hplain as [Hp Hpl].
  rewrite fmap_cons. cbn [mjoin list_join]. rewrite elem_of_app.
  intros [Hin|Hin]; [by eapply writerow_plain_no_quote|by apply IH].
Qed.

Lemma cleaned_rows_length df :
  wf_frame df → has_required df = true →
  Forall (λ r, length r = 3) (rows (cleaned df)).
Proof.
  intros Hwf Hreq. apply Forall_forall. intros r Hr.
  by destruct (cleaned_row_source df r Hwf Hreq Hr) as (_ & _ & ? & _).
Qed.

(** With plain cells and the columns in the order of the table, the COPY
    stages the rows of the cleaned frame. *)
Lemma copy_rows_cleaned_ordered df :
  wf_frame df → has_required df = true →
  plain_frame (cleaned df) = true →
  columns (cleaned df) = expected_columns →
  copy_rows (to_csv false (cleaned df))
  = Some (student_of expected_columns <$> rows (cleaned df)).
Proof.
  intros Hwf Hreq Hplain Hcols. unfold to_csv. cbn [app].
  rewrite copy_rows_plain
    by (by apply cleaned_rows_length || by apply plain_frame_Forall).
  apply mapM_fmap_Some. intros r Hr. by eapply stage_row_cleaned.
Qed.

(** What the cleaning does achieve.  No cell of the cleaned frame holds a
    comma or a double quote.  When in addition no cell holds a backslash,
    a line break or a NUL, the buffer holds no quote character, and when
    the columns of the frame are in the order [name, uni_roll, branch] the
    COPY stages exactly the rows of the frame, each cell under its
    label. *)
Lemma plain_rows_are_staged_as_they_are df :
  wf_frame df → has_required df = true →
  Forall (Forall (λ c, ∃ s, c = Str s ∧ (comma ∉ s) ∧ (dquote ∉ s)))
    (rows (cleaned df))
  ∧ (plain_frame (cleaned df) = true →
     (dquote ∉ to_csv false (cleaned df))
     ∧ (columns (cleaned df) = expected_columns →
        copy_rows (to_csv false (cleaned df))
        = Some (student_of (columns (cleaned df)) <$> rows (cleaned df)))).
Proof.
  intros Hwf Hreq. split.
  - apply Forall_forall. intros r Hr. apply Forall_forall. intros x Hx.
    apply list_elem_of_lookup in Hx as [k Hk].
    destruct (cleaned_cell_inv df r k x Hwf Hreq Hr Hk) as (n & v & ->).
    eexists. split; [done|].
    split; intros [_ [? ?]]%elem_of_clean_text; done.
  - intros Hplain. pose proof (cleaned_rows_length df Hwf Hreq) as Hlen.
    split; [by apply to_csv_plain_no_quote|].
    intros Hcols. rewrite Hcols. by apply copy_rows_cleaned_ordered.
Qed.

(** C10. The cleaning takes the commas and the double quotes out of the
    cells, so that the buffer needs no quoting, and leaves the backslash,
    which the COPY reads as the start of an escape.  For the name [A\B]
    the cleaned frame holds [A\B] and the buffer holds no quote; the COPY
    accepts the buffer and stages [AB], the run exits with status 0 and
    [students] holds [AB]: the round trip through the buffer is not the
    identity on this cleaned row. *)
Theorem C10_backslash_is_lost_in_the_copy :
  let env := mkEnv (Some df_backslash) true no_fault in
  rows (cleaned df_backslash) = [[Str (py "A\B"); Str (py "R1"); Str (py "X")]]
  ∧ (dquote ∉ to_csv false (cleaned df_backslash))
  ∧ copy_rows (to_csv false (cleaned df_backslash))
    = Some [mkStudent (Some (py "AB")) (Some (py "R1")) (Some (py "X"))]
  ∧ copy_rows (to_csv false (cleaned df_backslash))
    ≠ Some (student_of (columns (cleaned df_backslash))
              <$> rows (cleaned df_backslash))
  ∧ (run env fresh_world).1 = 0
  ∧ students (db (run env fresh_world).2)
    = Some [mkStudent (Some (py "AB")) (Some (py "R1")) (Some (py "X"))].
Proof.
  cbv zeta. split_and!.
  - by vm_compute.
  - apply (bool_decide_unpack _). vm_compute. exact I.
  - by vm_compute.
  - vm_compute. discriminate.
  - by vm_compute.
  - by vm_compute.
Qed.

(** A line feed in a cell makes the writer quote the field, and the COPY
    rejects the buffer. *)
Example newline_is_quoted_and_rejected :
  rows (cleaned df_newline) = rows df_newline
  ∧ dquote ∈ to_csv false (cleaned df_newline)
  ∧ copy_rows (to_csv false (cleaned df_newline)) = None.
Proof.
  split_and!; [by vm_compute| |by vm_compute].
  apply (bool_decide_unpack _). vm_compute. exact I.
Qed.

(** A carriage return in a cell is written as it is.  At the end of the
    only row it makes, with the line feed of the writer, the line break of
    the buffer: the COPY accepts the buffer and stages the branch without
    it. *)
Example carriage_return_is_not_quoted :
  rows (cleaned df_carriage_return) = rows df_carriage_return
  ∧ (dquote ∉ to_csv false (cleaned df_carriage_return))
  ∧ copy_rows (to_csv false (cleaned df_carriage_return))
    = Some [mkStudent (Some (py "A")) (Some (py "R1")) (Some (py "X"))].
Proof.
  split_and!; [by vm_compute| |by vm_compute].
  apply (bool_decide_unpack _). vm_compute. exact I.
Qed.

(** The codes of the COPY: the octal code of a letter gives the letter,
    two codes that make one character of UTF-8 are accepted, and a code
    for NUL or for a byte that no character of UTF-8 holds makes the
    server reject the buffer. *)
Example escape_codes_are_checked :
  copy_rows (py "\101,R1,X" ++ [LF])
  = Some [mkStudent (Some (py "A")) (Some (py "R1")) (Some (py "X"))]
  ∧ copy_rows (py "\303\251,R1,X" ++ [LF])
    = Some [mkStudent (Some [ascii_of_nat 195; ascii_of_nat 169])
              (Some (py "R1")) (Some (py "X"))]
  ∧ copy_rows (py "a\000,R1,X" ++ [LF]) = None
  ∧ copy_rows (py "a\x00,R1,X" ++ [LF]) = None
  ∧ copy_rows (py "a\377,R1,X" ++ [LF]) = None
  ∧ copy_rows (py "\N,R1,X" ++ [LF])
    = Some [mkStudent None (Some (py "R1")) (Some (py "X"))].
Proof. by vm_compute. Qed.

(** With the header [uni_roll,name,branch] the frame keeps that order and
    the COPY stages the [uni_roll] as [name] and the [name] as
    [uni_roll]. *)
Example permuted_columns_are_misplaced :
  copy_rows (to_csv false (cleaned df_permuted))
  = Some [mkStudent (Some (py "R1")) (Some (py "Ann")) (Some (py "CSE"))].
Proof. by vm_compute. Qed.

(** A field of a row read from the file, under a column of width [n]:
    in the cleaned frame the cell holds the text of the field without its
    commas and double quotes, cut to its first [n] characters: at most
    [n] characters, and exactly [n] when the stripped text has [n] or
    more.  The duplicates dropped afterwards take rows away and change no
    cell, and a run that exits with status 0 on a plain frame with the
    columns in the order of the table stores these cells in [students]. *)
Lemma long_fields_are_truncated df c n :
  wf_frame df → has_required df = true → (c, n) ∈ widths →
  (∀ i r0, rows df !! i = Some r0 →
     ∃ r, rows (clean (validated df)) !! i = Some r
          ∧ row_get (columns (clean (validated df))) c r
            = Str (py_slice_to n (strip (cell_str (row_get (columns df) c r0)))))
  ∧ (∀ r, r ∈ rows (cleaned df) →
       ∃ r0, r0 ∈ rows df ∧
         let v := strip (cell_str (row_get (columns df) c r0)) in
         row_get (columns (cleaned df)) c r = Str (py_slice_to n v)
         ∧ length (py_slice_to n v) ≤ n
         ∧ (n ≤ length v → length (py_slice_to n v) = n))
  ∧ (∀ env w,
       read_csv env = Some df → (run env w).1 = 0 →
       plain_frame (cleaned df) = true →
       columns (cleaned df) = expected_columns →
       ∀ r, r ∈ rows (cleaned df) →
         ∃ s, students (db (run env w).2) = Some s
              ∧ student_of expected_columns r ∈ s).
Proof.
  intros Hwf Hreq Hcn.
  assert (c ∈ expected_columns) as Hc by (apply widths_expected; eauto).
  pose proof (validated_wf _ Hwf) as Hwfv.
  pose proof (validated_has_required _ Hreq) as Hreqv.
  split_and!.
  - intros i r0 Hi.
    rewrite clean_rows by done. cbn [rows columns].
    rewrite validated_rows, !list_lookup_fmap, Hi. cbn [fmap option_fmap option_map].
    eexists. split; [done|].
    rewrite (row_get_clean_row _ _ c n), row_get_validated; [done..| |].
    + by eapply has_required_elem_of.
    + destruct Hwfv as [_ Hlen]. rewrite Forall_forall in Hlen. apply Hlen.
      rewrite validated_rows. apply list_elem_of_fmap_2.
      by eapply list_elem_of_lookup_2.
  - intros r Hr.
    destruct (cleaned_row_source df r Hwf Hreq Hr) as (r0 & Hr0 & _ & Hval).
    exists r0. split; [done|]. cbv zeta. split_and!.
    + by rewrite (Hval c n).
    + apply length_clean_text.
    + apply length_clean_text_full.
  - intros env w Hread Hexit Hplain Hcols r Hr.
    destruct (run_exit_0 _ _ Hexit)
      as (df' & staged & s1 & Hread' & _ & Hcopy & Hins & Hs).
    assert (df' = df) as -> by congruence.
    pose proof (copy_rows_cleaned_ordered df Hwf Hreq Hplain Hcols) as Hord.
    rewrite Hcopy in Hord. apply (inj Some) in Hord. subst staged.
    exists s1. split; [done|].
    eapply insert_on_conflict_proposed; [done|]. by apply list_elem_of_fmap_2.
Qed.

(** C7. The cut of line 37 counts the backslash that the COPY then takes
    away.  For a name made of a backslash and 300 times the letter [a],
    the cleaned frame holds the first 255 characters, the backslash and
    254 letters; the run exits with status 0 and the name stored in
    [students] is made of 254 letters: the field was longer than the
    column and the stored value is shorter than the column. *)
Theorem C7_long_name_with_backslash_is_stored_shorter :
  let env := mkEnv (Some df_long_backslash) true no_fault in
  getitem (cleaned df_long_backslash) (py "name")
  = [Str (py_slice_to 255 (strip (backslash :: replicate 300 letter_a)))]
  ∧ py_slice_to 255 (strip (backslash :: replicate 300 letter_a))
    = backslash :: replicate 254 letter_a
  ∧ (run env fresh_world).1 = 0
  ∧ students (db (run env fresh_world).2)
    = Some [mkStudent (Some (replicate 254 letter_a)) (Some (py "R1"))
              (Some (py "X"))]
  ∧ length (replicate 254 letter_a) < 255.
Proof.
  cbv zeta. split_and!.
  - by vm_compute.
  - by vm_compute.
  - by vm_compute.
  - by vm_compute.
  - rewrite length_replicate. lia.
Qed.

(** ** More about the paths *)

(** Line 40 drops no row: a frame read with the required columns keeps
    all its rows through the cleaning. *)
Lemma dropna_keeps_every_row df :
  wf_frame df → has_required df = true → len (clean df) = len df.
Proof.
  intros Hwf Hreq. rewrite clean_rows by done. unfold len. cbn [rows].
  by rewrite length_fmap.
Qed.

(** Whatever happens in a run, [uni_roll] stays unique in [students]. *)
Lemma run_keeps_uni_roll_unique env w s' :
  (∀ s, students (db w) = Some s → NoDup (uni_roll <$> s)) →
  students (db (run env w).2) = Some s' → NoDup (uni_roll <$> s').
Proof.
  intros Hinv. rewrite run_outcome. unfold outcome.
  assert (NoDup (uni_roll <$> default [] (students (db w)))) as Hs0.
  { destruct (students (db w)) as [s|] eqn:Hs; cbn; [by apply Hinv|constructor]. }
  destruct (read_csv env) as [df|]; [|by apply Hinv].
  destruct (has_required df); [|by apply Hinv]. cbn [negb].
  destruct (connect_ok env); [|by apply Hinv]. cbn [negb].
  destruct (fault env (CallExecute create_table_query)); [by apply Hinv|].
  destruct (fault env (CallExecute drop_temp_if_exists));
    [cbn [snd db students]; congruence|].
  destruct (fault env (CallExecute create_temp));
    [cbn [snd db students]; congruence|].
  destruct (if fault env CallCopy then None else copy_rows _) as [staged|];
    [|destruct (fault env CallWriteFailedRows);
      cbn [snd db students]; congruence].
  destruct (fault env (CallExecute insert_from_temp));
    [cbn [snd db students]; congruence|].
  destruct (insert_on_conflict [] staged _) as [s1|] eqn:Hins;
    cbn [snd db students]; [|congruence].
  intros [= <-]. by eapply insert_on_conflict_NoDup.
Qed.

(** Backslashes at the end of the cells escape the delimiters and the line
    break of the buffer: two cleaned rows with two [uni_roll] values are
    staged as one row, and both runs exit with status 0. *)
Example escaped_line_break_merges_rows :
  let env := mkEnv (Some df_escapes) true no_fault in
  let first := run env fresh_world in
  let second := run env first.2 in
  first.1 = 0 ∧ second.1 = 0
  ∧ length (remove_dups (getitem (cleaned df_escapes) (py "uni_roll"))) = 2
  ∧ length <$> students (db second.2) = Some 1.
Proof. by vm_compute. Qed.


(** * Further properties of the script *)

(** ** Failures before the database is reached *)

(** X1. A file that cannot be read, or that lacks one of the three
    required columns, ends the script with status 1 after it has only
    printed: no connection is attempted, and the database, the connection
    state and the recovery file are as they were. *)
Theorem X1_invalid_input_only_prints env w :
  read_csv env = None
  ∨ (∃ df, read_csv env = Some df ∧ has_required df = false) →
  (run env w).1 = 1
  ∧ db (run env w).2 = db w
  ∧ conn (run env w).2 = conn w
  ∧ failed_rows_csv (run env w).2 = failed_rows_csv w
  ∧ ∃ evs, trace (run env w).2 = trace w ++ evs
           ∧ Forall (λ e, ∃ m, e = Print m) evs.
Proof.
  intros Hin. rewrite run_outcome. unfold outcome.
  destruct Hin as [-> | (df & -> & ->)]; cbn [negb fst snd db conn failed_rows_csv trace];
    (split_and!; [reflexivity..|]); eexists; (split; [reflexivity|]);
    repeat constructor; eauto.
Qed.

Lemma X1_witness :
  (run (mkEnv None true no_fault) fresh_world).1 = 1.
Proof.
  exact (proj1 (X1_invalid_input_only_prints (mkEnv None true no_fault)
                  fresh_world (or_introl eq_refl))).
Defined.

Ltac each_event tac :=
  repeat (apply Forall_cons_2; [tac|]); apply Forall_nil_2.

(** ** Failures while the tables are prepared *)

(** X2. When the creation of [students], the drop of an old staging table
    or the creation of the staging table raises, the script closes the
    cursor and the connection and exits with status 1; it sends no COPY
    and no upsert, writes no recovery file, and [students] holds the rows
    it held. *)
Theorem X2_table_setup_failure env w df :
  read_csv env = Some df → has_required df = true → connect_ok env = true →
  fault env (CallExecute create_table_query) = true
  ∨ fault env (CallExecute drop_temp_if_exists) = true
  ∨ fault env (CallExecute create_temp) = true →
  (run env w).1 = 1
  ∧ conn (run env w).2 = ConnClosed
  ∧ default [] (students (db (run env w).2)) = default [] (students (db w))
  ∧ failed_rows_csv (run env w).2 = failed_rows_csv w
  ∧ ∃ evs, trace (run env w).2 = trace w ++ evs ++ [CursorClose; ConnClose]
           ∧ Forall (λ e, ∀ b, e ≠ CopyFrom b) evs
           ∧ Execute insert_from_temp ∉ evs.
Proof.
  intros Hread Hreq Hconn Hf. rewrite run_outcome. unfold outcome.
  rewrite Hread, Hreq, Hconn. cbn [negb].
  assert (∀ evs : list Event,
            Forall (λ e, is_database_call e = false ∨ (∃ q, e = Execute q ∧ q ≠ insert_from_temp)) evs →
            Forall (λ e, ∀ b, e ≠ CopyFrom b) evs ∧ Execute insert_from_temp ∉ evs)
    as Hok.
  { intros evs Hevs. rewrite Forall_forall in Hevs. split.
    - apply Forall_forall. intros e He b ->.
      destruct (Hevs _ He) as [?|(q & ? & _)]; done.
    - intros He. destruct (Hevs _ He) as [?|(q & [= <-] & ?)]; done. }
  destruct (fault env (CallExecute create_table_query)) eqn:F1;
    [|destruct (fault env (CallExecute drop_temp_if_exists)) eqn:F2;
      [|destruct (fault env (CallExecute create_temp)) eqn:F3;
        [|by destruct Hf as [?|[?|?]]]]];
    cbn [fst snd db conn failed_rows_csv trace students default];
    (split_and!; [reflexivity|reflexivity|by destruct (students (db w))|reflexivity|]).
  - exists ((step1_events df ++ [Connect; Print ConnectedOk])
            ++ [Print CreatingTable; Execute create_table_query;
                Print ErrorCreatingTable]).
    split; [by rewrite <- !app_assoc|]. apply Hok.
    rewrite !Forall_app. split_and!.
    + eapply Forall_impl; [apply step1_events_no_database_call|]. by left.
    + each_event ltac:((by left) || (right; by eexists)).
    + each_event ltac:((by left) || (right; by eexists)).
  - exists (((step1_events df ++ [Connect; Print ConnectedOk])
             ++ [Print CreatingTable; Execute create_table_query;
                 Print TableCreated])
            ++ [Print PreparingData; Execute drop_temp_if_exists;
                Print ErrorCreatingTemp]).
    split; [by rewrite <- !app_assoc|]. apply Hok.
    rewrite !Forall_app. split_and!.
    + eapply Forall_impl; [apply step1_events_no_database_call|]. by left.
    + each_event ltac:((by left) || (right; by eexists)).
    + each_event ltac:((by left) || (right; by eexists)).
    + each_event ltac:((by left) || (right; by eexists)).
  - exists (((step1_events df ++ [Connect; Print ConnectedOk])
             ++ [Print CreatingTable; Execute create_table_query;
                 Print TableCreated])
            ++ [Print PreparingData; Execute drop_temp_if_exists;
                Execute create_temp; Print ErrorCreatingTemp]).
    split; [by rewrite <- !app_assoc|]. apply Hok.
    rewrite !Forall_app. split_and!.
    + eapply Forall_impl; [apply step1_events_no_database_call|]. by left.
    + each_event ltac:((by left) || (right; by eexists)).
    + each_event ltac:((by left) || (right; by eexists)).
    + each_event ltac:((by left) || (right; by eexists)).
Qed.

Lemma X2_witness :
  (run (mkEnv (Some df_dup) true create_fault) fresh_world).1 = 1.
Proof.
  exact (proj1 (X2_table_setup_failure
                  (mkEnv (Some df_dup) true create_fault) fresh_world df_dup
                  eq_refl eq_refl eq_refl (or_introl eq_refl))).
Defined.

(** ** The failure of the upsert *)

(** X3. When everything up to the COPY went through and the upsert raises
    (the driver fails, or the server rejects the statement), the script
    closes the cursor and the connection and exits with status 1;
    [students] holds the rows it held, the staging table is left in place
    with the staged rows, and no recovery file is written. *)
Theorem X3_merge_failure_leaves_staging_table env w df staged :
  read_csv env = Some df → has_required df = true → connect_ok env = true →
  fault env (CallExecute create_table_query) = false →
  fault env (CallExecute drop_temp_if_exists) = false →
  fault env (CallExecute create_temp) = false →
  fault env CallCopy = false →
  copy_rows (to_csv false (cleaned df)) = Some staged →
  fault env (CallExecute insert_from_temp) = true
  ∨ insert_on_conflict [] staged (default [] (students (db w))) = None →
  (run env w).1 = 1
  ∧ conn (run env w).2 = ConnClosed
  ∧ students (db (run env w).2) = Some (default [] (students (db w)))
  ∧ temp_students (db (run env w).2) = Some staged
  ∧ failed_rows_csv (run env w).2 = failed_rows_csv w
  ∧ ∃ evs, trace (run env w).2
           = trace w ++ evs ++ [Execute insert_from_temp;
                                Print ErrorTransferring;
                                CursorClose; ConnClose].
Proof.
  intros Hread Hreq Hconn F1 F2 F3 F4 Hcopy Hfail.
  rewrite run_outcome. unfold outcome.
  rewrite Hread, Hreq, Hconn, F1, F2, F3, F4, Hcopy. cbn [negb].
  assert ((if fault env (CallExecute insert_from_temp) then None
           else insert_on_conflict [] staged (default [] (students (db w))))
          = None) as ->.
  { destruct Hfail as [-> | ->]; [done|].
    by destruct (fault env (CallExecute insert_from_temp)). }
  cbn [fst snd db conn failed_rows_csv trace students temp_students].
  split_and!; [reflexivity..|].
  set (e5 := _ ++ [Print PreparingData; _; _; _; _; _; _]).
  exists (e5 ++ [Print (LoadedIntoTemp (len (cleaned df))); Print MovingData]).
  by rewrite <- !app_assoc.
Qed.

Lemma X3_witness :
  (run (mkEnv (Some df_dup) true merge_fault) fresh_world).1 = 1.
Proof.
  refine (proj1 (X3_merge_failure_leaves_staging_table
                   (mkEnv (Some df_dup) true merge_fault) fresh_world df_dup
                   staged_dup _ _ _ _ _ _ _ _ (or_introl _)));
    vm_compute; reflexivity.
Defined.

(** ** When a run succeeds *)

(** X4. The exit status is 0 or 1, and it is 0 exactly when the file was
    read with its required columns, the connection was made, no call up
    to the upsert failed in the driver, the server accepted the buffer
    and the server accepted the upsert.  The drop of the staging table
    and the count play no part. *)
Theorem X4_exit_status env w :
  ((run env w).1 = 0 ∨ (run env w).1 = 1)
  ∧ ((run env w).1 = 0 ↔
     ∃ df staged s1,
       read_csv env = Some df ∧ has_required df = true
       ∧ connect_ok env = true
       ∧ fault env (CallExecute create_table_query) = false
       ∧ fault env (CallExecute drop_temp_if_exists) = false
       ∧ fault env (CallExecute create_temp) = false
       ∧ fault env CallCopy = false
       ∧ copy_rows (to_csv false (cleaned df)) = Some staged
       ∧ fault env (CallExecute insert_from_temp) = false
       ∧ insert_on_conflict [] staged (default [] (students (db w))) = Some s1).
Proof.
  rewrite run_outcome. unfold outcome.
  destruct (read_csv env) as [df|] eqn:Hread; cycle 1.
  { split; [by right|]. split; [done|]. by intros (? & ? & ? & ? & _). }
  destruct (has_required df) eqn:Hreq; cbn [negb]; cycle 1.
  { split; [by right|]. split; [done|].
    intros (? & ? & ? & [= <-] & ? & _). congruence. }
  destruct (connect_ok env) eqn:Hconn; cbn [negb]; cycle 1.
  { split; [by right|]. split; [done|]. by intros (? & ? & ? & _ & _ & ? & _). }
  destruct (fault env (CallExecute create_table_query)) eqn:F1.
  { split; [by right|]. split; [done|].
    by intros (? & ? & ? & _ & _ & _ & ? & _). }
  destruct (fault env (CallExecute drop_temp_if_exists)) eqn:F2.
  { split; [by right|]. split; [done|].
    by intros (? & ? & ? & _ & _ & _ & _ & ? & _). }
  destruct (fault env (CallExecute create_temp)) eqn:F3.
  { split; [by right|]. split; [done|].
    by intros (? & ? & ? & _ & _ & _ & _ & _ & ? & _). }
  destruct (fault env CallCopy) eqn:F4.
  { destruct (fault env CallWriteFailedRows);
      (split; [by right|]); (split; [done|]);
      by intros (? & ? & ? & _ & _ & _ & _ & _ & _ & ? & _). }
  destruct (copy_rows (to_csv false (cleaned df))) as [staged|] eqn:Hcopy;
    cycle 1.
  { destruct (fault env CallWriteFailedRows);
      (split; [by right|]); (split; [done|]);
      intros (? & ? & ? & [= <-] & _ & _ & _ & _ & _ & _ & ? & _); congruence. }
  destruct (fault env (CallExecute insert_from_temp)) eqn:F5.
  { split; [by right|]. split; [done|].
    by intros (? & ? & ? & _ & _ & _ & _ & _ & _ & _ & _ & ? & _). }
  destruct (insert_on_conflict [] staged (default [] (students (db w))))
    as [s1|] eqn:Hins; cycle 1.
  { split; [by right|]. split; [done|].
    intros (? & ? & ? & [= <-] & _ & _ & _ & _ & _ & _ & ? & _ & ?).
    congruence. }
  split; [by left|]. split; [|done].
  intros _. exists df, staged, s1. by split_and!.
Qed.

(** ** What a run leaves behind *)

(** X5. The connection is left open on one path only.  At the end of a
    run the connection is closed, or it was never made and its state is
    the one before the run, or the COPY raised and the write of
    [failed_rows.csv] in its handler raised as well: then the script ends
    with status 1 before it reaches the two close calls. *)
Theorem X5_connection_left_open_only_when_recovery_write_fails env w :
  conn (run env w).2 = ConnClosed
  ∨ (conn (run env w).2 = conn w ∧ (run env w).1 = 1
     ∧ db (run env w).2 = db w)
  ∨ (conn (run env w).2 = ConnOpen ∧ (run env w).1 = 1
     ∧ fault env CallWriteFailedRows = true
     ∧ ∃ df, read_csv env = Some df
             ∧ (fault env CallCopy = true
                ∨ copy_rows (to_csv false (cleaned df)) = None)).
Proof.
  rewrite run_outcome. unfold outcome.
  destruct (read_csv env) as [df|]; [|by right; left].
  destruct (has_required df); cbn [negb]; [|by right; left].
  destruct (connect_ok env); cbn [negb]; [|by right; left].
  destruct (fault env (CallExecute create_table_query)); [by left|].
  destruct (fault env (CallExecute drop_temp_if_exists)); [by left|].
  destruct (fault env (CallExecute create_temp)); [by left|].
  destruct (fault env CallCopy) eqn:F4.
  { destruct (fault env CallWriteFailedRows); [|by left].
    right; right. split_and!; [done..|]. exists df. split; [done|by left]. }
  destruct (copy_rows (to_csv false (cleaned df))) as [staged|] eqn:Hcopy.
  - left.
    by destruct (if fault env (CallExecute insert_from_temp) then None else _).
  - destruct (fault env CallWriteFailedRows); [|by left].
    right; right. split_and!; [done..|]. exists df. split; [done|by right].
Qed.


(** X7. What an earlier run left in the staging table plays no part: the
    exit status of a run and the rows it leaves in [students] are the
    same whatever [temp_students] held before. *)
Theorem X7_old_staging_rows_are_ignored env w (t : option (list Student)) :
  let w' := set_db (mkDatabase (students (db w)) t) w in
  (run env w').1 = (run env w).1
  ∧ students (db (run env w').2) = students (db (run env w).2).
Proof.
  cbv zeta. rewrite !run_outcome. unfold outcome.
  cbn [set_db db students temp_students failed_rows_csv conn trace].
  destruct (read_csv env) as [df|]; [|done].
  destruct (has_required df); cbn [negb]; [|done].
  destruct (connect_ok env); cbn [negb]; [|done].
  destruct (fault env (CallExecute create_table_query)); [done|].
  destruct (fault env (CallExecute drop_temp_if_exists)); [done|].
  destruct (fault env (CallExecute create_temp)); [done|].
  destruct (if fault env CallCopy then None else _);
    [|by destruct (fault env CallWriteFailedRows)].
  by destruct (if fault env (CallExecute insert_from_temp) then None else _).
Qed.

(** ** More about the upsert *)

Lemma insert_on_conflict_accepts touched src t :
  NoDup (uni_roll <$> src) → None ∉ uni_roll <$> src →
  (∀ k, k ∈ touched → k ∉ uni_roll <$> src) →
  is_Some (insert_on_conflict touched src t).
Proof.
  revert touched t. induction src as [|r src IH]; intros touched t;
    cbn [insert_on_conflict]; [by eauto|].
  rewrite fmap_cons, NoDup_cons, not_elem_of_cons.
  intros [Hr Hnd] [Hnone Hn] Hfresh.
  rewrite decide_False by congruence.
  rewrite decide_False by (intros Hin; apply (Hfresh _ Hin); by left).
  apply IH; [done..|].
  intros k [->|Hk]%elem_of_cons; [done|].
  intros Hin. apply (Hfresh _ Hk). by right.
Qed.

Lemma upsert_fresh r t :
  uni_roll r ∉ uni_roll <$> t → upsert r t = t ++ [r].
Proof.
  induction t as [|r' t IH]; [done|]. cbn.
  rewrite not_elem_of_cons. intros [Hne Hr].
  rewrite decide_False by congruence. by rewrite IH.
Qed.

Lemma upsert_same r t :
  NoDup (uni_roll <$> t) → r ∈ t → upsert r t = t.
Proof.
  induction t as [|r' t IH]; intros Hnd Hr.
  - by apply elem_of_nil in Hr.
  - cbn. destruct (decide (uni_roll r' = uni_roll r)) as [Heq|Hne].
    + assert (r' = r) as ->.
      { eapply (NoDup_key_inj (r' :: t)); [done|by left|done..]. }
      by destruct r.
    + f_equal. apply IH.
      * by apply NoDup_cons in Hnd as [_ ?].
      * apply elem_of_cons in Hr as [->|?]; done.
Qed.

Lemma upsert_keeps_keys r t k :
  k ∈ uni_roll <$> t → k ∈ uni_roll <$> upsert r t.
Proof.
  intros Hk. rewrite upsert_keys. case_decide; [done|].
  apply elem_of_app. by left.
Qed.

Lemma insert_on_conflict_keeps_keys touched src t t' k :
  insert_on_conflict touched src t = Some t' →
  k ∈ uni_roll <$> t → k ∈ uni_roll <$> t'.
Proof.
  revert touched t. induction src as [|r src IH]; intros touched t;
    cbn [insert_on_conflict].
  - by intros [= ->].
  - repeat case_decide; try done. intros Hs Hk.
    eapply IH; [done|]. by apply upsert_keeps_keys.
Qed.

Lemma insert_on_conflict_again touched src s :
  NoDup (uni_roll <$> s) → (∀ x, x ∈ src → x ∈ s) →
  NoDup (uni_roll <$> src) → None ∉ uni_roll <$> src →
  (∀ k, k ∈ touched → k ∉ uni_roll <$> src) →
  insert_on_conflict touched src s = Some s.
Proof.
  intros Hs. revert touched. induction src as [|r src IH]; intros touched;
    cbn [insert_on_conflict]; [done|].
  rewrite fmap_cons, NoDup_cons, not_elem_of_cons.
  intros Hin [Hr Hnd] [Hnone Hn] Hfresh.
  rewrite decide_False by congruence.
  rewrite decide_False by (intros Hk; apply (Hfresh _ Hk); by left).
  rewrite upsert_same by (done || (apply Hin; by left)).
  apply IH; [intros; apply Hin; by right|done..|].
  intros k [->|Hk]%elem_of_cons; [done|].
  intros Hk'. apply (Hfresh _ Hk). by right.
Qed.

Lemma insert_on_conflict_appends touched src acc t' :
  (∀ k, k ∈ uni_roll <$> acc → k ∈ touched) →
  insert_on_conflict touched src acc = Some t' → t' = acc ++ src.
Proof.
  revert touched acc. induction src as [|r src IH]; intros touched acc Hacc;
    cbn [insert_on_conflict].
  - intros [= <-]. by rewrite app_nil_r.
  - repeat case_decide; try done. intros Hs.
    rewrite upsert_fresh in Hs by (intros Hk; by apply Hacc in Hk).
    apply IH in Hs; [by rewrite Hs, <- app_assoc|].
    intros k. rewrite fmap_app, elem_of_app, elem_of_cons.
    intros [Hk|Hk]; [right; by apply Hacc|].
    cbn in Hk. apply list_elem_of_singleton in Hk as ->. by left.
Qed.

(** X8. The server accepts the upsert exactly when the staged [uni_roll]
    values are distinct and none of them is [NULL]; the rows [students]
    already holds play no part in that. *)
Theorem X8_upsert_accepted_iff_keys_distinct (t s : list Student) :
  is_Some (insert_on_conflict [] t s)
  ↔ NoDup (uni_roll <$> t) ∧ None ∉ uni_roll <$> t.
Proof.
  split.
  - intros [s' Hs']. by eapply insert_on_conflict_keys.
  - intros [Hnd Hnone]. apply insert_on_conflict_accepts; [done..|].
    intros k Hk. by apply elem_of_nil in Hk.
Qed.

(** X9. A run never drops [students] and never takes a [uni_roll] away
    from it: the table that was there is there afterwards, on every path,
    and every [uni_roll] it held is still the [uni_roll] of one of its
    rows. *)
Theorem X9_run_never_removes_a_key env w s :
  students (db w) = Some s →
  ∃ s', students (db (run env w).2) = Some s'
        ∧ ∀ k, k ∈ uni_roll <$> s → k ∈ uni_roll <$> s'.
Proof.
  intros Hs. rewrite run_outcome. unfold outcome.
  assert (default [] (students (db w)) = s) as Hd by (by rewrite Hs).
  assert (∀ d : World, students (db d) = Some s →
            ∃ s', students (db d) = Some s'
                  ∧ ∀ k, k ∈ uni_roll <$> s → k ∈ uni_roll <$> s') as Hkeep
    by (intros d Hdb; by exists s).
  destruct (read_csv env) as [df|]; [|by apply Hkeep].
  destruct (has_required df); cbn [negb]; [|by apply Hkeep].
  destruct (connect_ok env); cbn [negb]; [|by apply Hkeep].
  destruct (fault env (CallExecute create_table_query)); [by apply Hkeep|].
  destruct (fault env (CallExecute drop_temp_if_exists));
    [apply Hkeep; cbn [snd db students]; by rewrite Hd|].
  destruct (fault env (CallExecute create_temp));
    [apply Hkeep; cbn [snd db students]; by rewrite Hd|].
  destruct (if fault env CallCopy then None else _) as [staged|];
    [|destruct (fault env CallWriteFailedRows);
      apply Hkeep; cbn [snd db students]; by rewrite Hd].
  destruct (fault env (CallExecute insert_from_temp));
    [apply Hkeep; cbn [snd db students]; by rewrite Hd|].
  destruct (insert_on_conflict [] staged _) as [s1|] eqn:Hins;
    [|apply Hkeep; cbn [snd db students]; by rewrite Hd].
  exists s1. split; [done|]. rewrite Hd in Hins.
  intros k Hk. by eapply insert_on_conflict_keeps_keys.
Qed.

Lemma X9_witness :
  ∃ s', students (db (run (mkEnv (Some df_dup) true no_fault)
                        world_with_other_row).2) = Some s'
        ∧ ∀ k, k ∈ [Some (py "R9")] → k ∈ uni_roll <$> s'.
Proof.
  exact (X9_run_never_removes_a_key (mkEnv (Some df_dup) true no_fault)
           world_with_other_row _ eq_refl).
Defined.

(** X10. Loading the same file a second time changes nothing: when
    [uni_roll] is unique in [students] before the first run and both runs
    exit with status 0, the table after the second run is the table after
    the first run, row for row. *)
Theorem X10_second_run_changes_nothing env1 env2 w df :
  read_csv env1 = Some df → read_csv env2 = Some df →
  (∀ s, students (db w) = Some s → NoDup (uni_roll <$> s)) →
  (run env1 w).1 = 0 →
  (run env2 (run env1 w).2).1 = 0 →
  students (db (run env2 (run env1 w).2).2) = students (db (run env1 w).2).
Proof.
  intros Hread1 Hread2 Hinv H1 H2.
  destruct (run_exit_0 _ _ H1) as (df1 & staged & s1 & Hr1 & _ & Hc1 & Hi1 & Hs1).
  destruct (run_exit_0 _ _ H2) as (df2 & staged2 & s2 & Hr2 & _ & Hc2 & Hi2 & Hs2).
  assert (df1 = df) as -> by congruence.
  assert (df2 = df) as -> by congruence.
  rewrite Hc1 in Hc2. apply (inj Some) in Hc2. subst staged2.
  assert (default [] (students (db (run env1 w).2)) = s1) as Hd
    by (by rewrite Hs1).
  rewrite Hd in Hi2. rewrite Hs1, Hs2. f_equal.
  destruct (insert_on_conflict_keys _ _ _ _ Hi1) as [Hnd Hnone].
  assert (NoDup (uni_roll <$> s1)) as Hs1nd.
  { eapply insert_on_conflict_NoDup; [done|].
    destruct (students (db w)) as [s|] eqn:Hs; cbn; [by apply Hinv|constructor]. }
  rewrite insert_on_conflict_again in Hi2; [congruence|done| |done..|].
  - intros x Hx. by eapply insert_on_conflict_proposed.
  - intros k Hk. by apply elem_of_nil in Hk.
Qed.

Lemma X10_witness :
  students (db (run (mkEnv (Some df_dup) true no_fault)
                  (run (mkEnv (Some df_dup) true no_fault)
                     world_with_other_row).2).2)
  = students (db (run (mkEnv (Some df_dup) true no_fault)
                    world_with_other_row).2).
Proof.
  refine (X10_second_run_changes_nothing
            (mkEnv (Some df_dup) true no_fault)
            (mkEnv (Some df_dup) true no_fault)
            world_with_other_row df_dup eq_refl eq_refl _ _ _).
  - intros s [= <-]. apply (bool_decide_unpack _). vm_compute. exact I.
  - vm_compute. reflexivity.
  - vm_compute. reflexivity.
Defined.

(** X11. A first load: when [students] is absent or empty, the cells of
    the cleaned frame hold no backslash, line break or NUL, its columns
    are in the order of the table and the run exits with status 0, the
    table holds afterwards exactly the rows of the cleaned frame, in the
    order of the file. *)
Theorem X11_first_load_stores_the_cleaned_rows env w df :
  read_csv env = Some df → wf_frame df →
  default [] (students (db w)) = [] →
  plain_frame (cleaned df) = true →
  columns (cleaned df) = expected_columns →
  (run env w).1 = 0 →
  students (db (run env w).2)
  = Some (student_of expected_columns <$> rows (cleaned df)).
Proof.
  intros Hread Hwf Hempty Hplain Hcols Hexit.
  destruct (run_exit_0 _ _ Hexit)
    as (df' & staged & s1 & Hread' & Hreq & Hcopy & Hins & Hs).
  assert (df' = df) as -> by congruence.
  pose proof (copy_rows_cleaned_ordered df Hwf Hreq Hplain Hcols) as Hord.
  rewrite Hcopy in Hord. apply (inj Some) in Hord. subst staged.
  rewrite Hempty in Hins. apply insert_on_conflict_appends in Hins.
  - by rewrite Hs, Hins.
  - intros k Hk. by apply elem_of_nil in Hk.
Qed.

Lemma X11_witness :
  students (db (run (mkEnv (Some df_dup) true no_fault) fresh_world).2)
  = Some (student_of expected_columns <$> rows (cleaned df_dup)).
Proof.
  refine (X11_first_load_stores_the_cleaned_rows
            (mkEnv (Some df_dup) true no_fault) fresh_world df_dup
            eq_refl _ eq_refl eq_refl eq_refl _).
  - split; apply (bool_decide_unpack _); vm_compute; exact I.
  - vm_compute. reflexivity.
Defined.

(** ** More about the cleaned frame *)

(** X13. The shape of the frame the script sends: it has the three
    required columns and no other, every row has three cells, and it has
    no more rows than the file.  When the file has more than three columns
    the columns are [name, uni_roll, branch] in that order; otherwise they
    keep the order of the file. *)
Theorem X13_shape_of_the_cleaned_frame df :
  wf_frame df → has_required df = true →
  columns (cleaned df) ≡ₚ expected_columns
  ∧ Forall (λ r, length r = 3) (rows (cleaned df))
  ∧ len (cleaned df) ≤ len df
  ∧ columns (cleaned df)
    = if bool_decide (length expected_columns < length (columns df))
      then expected_columns else columns df.
Proof.
  intros Hwf Hreq.
  pose proof (validated_wf _ Hwf) as Hwfv.
  pose proof (validated_has_required _ Hreq) as Hreqv.
  split_and!.
  - rewrite (cleaned_eq df Hreq). cbn [columns].
    by apply validated_columns_perm.
  - by apply cleaned_rows_length.
  - rewrite (cleaned_eq df Hreq). unfold len. cbn [rows].
    etrans; [apply sublist_length, kept_sublist|].
    rewrite clean_rows by done. cbn [rows].
    by rewrite length_fmap, validated_rows, length_fmap.
  - rewrite (cleaned_eq df Hreq). cbn [columns]. unfold validated.
    by case_bool_decide.
Qed.

Lemma X13_witness : columns (cleaned df_extra) ≡ₚ expected_columns.
Proof.
  refine (proj1 (X13_shape_of_the_cleaned_frame df_extra _ eq_refl)).
  split; apply (bool_decide_unpack _); vm_compute; exact I.
Defined.

(** ** A file without rows *)

Lemma cleaned_no_rows df :
  has_required df = true → rows df = [] →
  cleaned df = mkDataFrame (columns (validated df)) [].
Proof.
  intros Hreq Hrows. rewrite (cleaned_eq df Hreq). f_equal.
  assert (rows (clean (validated df)) = []) as ->; [|done].
  pose proof (validated_has_required _ Hreq) as Hreqv.
  assert (∀ c, c ∈ expected_columns → c ∈ columns (validated df)) as Hin
    by eauto using has_required_elem_of.
  unfold clean.
  rewrite (clean_column_present (py "name")) by (apply Hin; set_solver).
  rewrite (clean_column_present (py "uni_roll")) by (apply Hin; set_solver).
  rewrite (clean_column_present (py "branch")) by (apply Hin; set_solver).
  unfold dropna. cbn [rows columns]. by rewrite validated_rows, Hrows.
Qed.

(** X14. A file with a header and no row: when the connection is made and
    no call up to the upsert fails in the driver, the script sends an
    empty buffer, the COPY and the upsert go through, the run exits with
    status 0 and [students] holds the rows it held (it is created empty
    when it was absent). *)
Theorem X14_file_without_rows env w df :
  read_csv env = Some df → has_required df = true → rows df = [] →
  connect_ok env = true →
  fault env (CallExecute create_table_query) = false →
  fault env (CallExecute drop_temp_if_exists) = false →
  fault env (CallExecute create_temp) = false →
  fault env CallCopy = false →
  fault env (CallExecute insert_from_temp) = false →
  to_csv false (cleaned df) = []
  ∧ (run env w).1 = 0
  ∧ students (db (run env w).2) = Some (default [] (students (db w))).
Proof.
  intros Hread Hreq Hrows Hconn F1 F2 F3 F4 F5.
  assert (to_csv false (cleaned df) = []) as Hbuf
    by (by rewrite cleaned_no_rows).
  split; [done|].
  rewrite run_outcome. unfold outcome.
  rewrite Hread, Hreq, Hconn, F1, F2, F3, F4, Hbuf, F5. cbn [negb].
  change (copy_rows []) with (Some (@nil Student)).
  cbn [insert_on_conflict]. by split.
Qed.

Lemma X14_witness :
  (run (mkEnv (Some df_empty) true no_fault) world_with_other_row).1 = 0.
Proof.
  exact (proj1 (proj2 (X14_file_without_rows
                         (mkEnv (Some df_empty) true no_fault)
                         world_with_other_row df_empty
                         eq_refl eq_refl eq_refl eq_refl eq_refl eq_refl
                         eq_refl eq_refl eq_refl))).
Defined.

(** ** The order of the database calls *)

Lemma step1_events_filter df :
  filter (λ e, is_database_call e = true) (step1_events df) = [].
Proof.
  apply filter_none. intros e He.
  pose proof (step1_events_no_database_call df) as H.
  rewrite Forall_forall in H. rewrite (H _ He). done.
Qed.

Ltac filter_calls :=
  rewrite ?filter_app, ?step1_events_filter;
  repeat (rewrite filter_cons_True by done
          || rewrite filter_cons_False by done);
  rewrite ?filter_nil; cbn [app].

(** X15. The script sends its database calls in one order and each at
    most once: the calls of a run are the first calls of the list create
    [students], drop an old staging table, create the staging table, COPY
    the buffer, upsert, drop the staging table, count. *)
Theorem X15_database_calls_in_order env w df :
  read_csv env = Some df →
  ∃ evs, trace (run env w).2 = trace w ++ evs
         ∧ filter (λ e, is_database_call e = true) evs
           `prefix_of` database_calls df.
Proof.
  intros Hread. rewrite run_outcome. unfold outcome. rewrite Hread.
  unfold database_calls.
  destruct (has_required df); cbn [negb];
    [|eexists; split; [reflexivity|]; filter_calls; apply prefix_nil].
  destruct (connect_ok env); cbn [negb];
    [|eexists; split; [reflexivity|]; filter_calls; apply prefix_nil].
  destruct (fault env (CallExecute create_table_query));
    [eexists; split; [reflexivity|]; filter_calls; by eexists|].
  destruct (fault env (CallExecute drop_temp_if_exists));
    [eexists; split; [reflexivity|]; filter_calls; by eexists|].
  destruct (fault env (CallExecute create_temp));
    [eexists; split; [reflexivity|]; filter_calls; by eexists|].
  destruct (if fault env CallCopy then None else _);
    [|destruct (fault env CallWriteFailedRows);
      eexists; (split; [reflexivity|]); filter_calls; by eexists].
  destruct (if fault env (CallExecute insert_from_temp) then None else _);
    [|eexists; split; [reflexivity|]; filter_calls; by eexists].
  destruct (fault env (CallExecute select_count));
    [|case_bool_decide];
    (eexists; split; [reflexivity|]); filter_calls; by eexists.
Qed.

Lemma X15_witness :
  ∃ evs, trace (run (mkEnv (Some df_dup) true copy_fault) fresh_world).2
         = trace fresh_world ++ evs
         ∧ filter (λ e, is_database_call e = true) evs
           `prefix_of` database_calls df_dup.
Proof.
  exact (X15_database_calls_in_order (mkEnv (Some df_dup) true copy_fault)
           fresh_world df_dup eq_refl).
Defined.

(** ** Cleaning a cleaned frame *)

Lemma strip_without_comma_quote s :
  (∀ c, c ∈ s → c ≠ comma ∧ c ≠ dquote) → strip s = s.
Proof.
  intros Hs. unfold strip. rewrite !py_replace_nil.
  rewrite (filter_all (λ c, c ≠ comma) s) by (intros c Hc; by apply Hs).
  apply filter_all. intros c Hc. by apply Hs.
Qed.

Lemma clean_text_again n c :
  clean_text n (Str (clean_text n c)) = clean_text n c.
Proof.
  unfold clean_text at 1. cbn [cell_str].
  rewrite strip_without_comma_quote.
  - unfold clean_text, py_slice_to. by rewrite take_take, Nat.min_id.
  - intros a Ha. by apply elem_of_clean_text in Ha as [_ ?].
Qed.

Lemma widths_functional c n n' : (c, n) ∈ widths → (c, n') ∈ widths → n = n'.
Proof.
  unfold widths. rewrite !elem_of_cons, !elem_of_nil.
  intros [[= -> ->]|[[= -> ->]|[[= -> ->]|[]]]]
         [[= <-]|[[= <-]|[[= <-]|[]]]]; done.
Qed.

Lemma clean_row_again cols r0 :
  NoDup cols → cols ≡ₚ expected_columns → length r0 = length cols →
  clean_row cols (clean_row cols r0) = clean_row cols r0.
Proof.
  intros Hnd Hperm Hlen. apply list_eq. intros k.
  destruct (clean_row cols r0 !! k) as [x|] eqn:Hx.
  - destruct (clean_row_lookup cols r0 k x) as (c & n & Hcn & Hc & ->);
      [done..|].
    assert (is_Some (clean_row cols (clean_row cols r0) !! k)) as [y Hy].
    { apply lookup_lt_is_Some. rewrite length_clean_row.
      by eapply lookup_lt_Some. }
    destruct (clean_row_lookup cols (clean_row cols r0) k y)
      as (c' & n' & Hcn' & Hc' & ->); [done..|by rewrite length_clean_row|done|].
    rewrite Hc in Hc'. apply (inj Some) in Hc'. subst c'.
    assert (n' = n) as -> by (by eapply widths_functional).
    rewrite Hy. f_equal. f_equal.
    rewrite (row_get_clean_row _ _ c n); [apply clean_text_again|done| |done].
    by eapply list_elem_of_lookup_2.
  - apply lookup_ge_None. apply lookup_ge_None in Hx.
    rewrite !length_clean_row. by rewrite length_clean_row in Hx.
Qed.

Lemma kept_without_duplicates {A} (key : A → cell) seen (l : list A) :
  NoDup (key <$> l) → (∀ k, k ∈ seen → k ∉ key <$> l) →
  kept key seen l = l.
Proof.
  revert seen. induction l as [|x l IH]; intros seen; [done|].
  rewrite fmap_cons, NoDup_cons. intros [Hx Hnd] Hseen.
  rewrite kept_cons, bool_decide_eq_false_2
    by (intros Hin; apply (Hseen _ Hin); by left).
  f_equal. apply IH; [done|].
  intros k [->|Hk]%elem_of_cons; [done|].
  intros Hin. apply (Hseen _ Hk). by right.
Qed.

(** A frame of three columns whose rows are already clean and have
    distinct [uni_roll] values goes through lines 28 to 45 unchanged. *)
Lemma cleaned_fixed df :
  wf_frame df → has_required df = true →
  length (columns df) = 3 →
  (∀ r, r ∈ rows df → clean_row (columns df) r = r) →
  NoDup (getitem df (py "uni_roll")) →
  cleaned df = df.
Proof.
  intros Hwf Hreq Hthree Hrows Hkeys.
  assert (validated df = df) as Hval.
  { unfold validated. rewrite Hthree.
    by rewrite bool_decide_eq_false_2 by (cbn; lia). }
  assert (rows (clean df) = rows df) as Hclean.
  { rewrite clean_rows by done. cbn [rows].
    transitivity (id <$> rows df); [|apply list_fmap_id].
    apply list_fmap_ext. intros i r Hr%list_elem_of_lookup_2.
    by apply Hrows. }
  rewrite (cleaned_eq df Hreq), Hval, Hclean.
  rewrite kept_without_duplicates; [by destruct df|done|].
  intros k Hk. by apply elem_of_nil in Hk.
Qed.

(** X16. Cleaning is idempotent: the frame the script sends, read again
    as the input of lines 28 to 45, comes out as it went in. *)
Theorem X16_cleaning_a_cleaned_frame_changes_nothing df :
  wf_frame df → has_required df = true →
  cleaned (cleaned df) = cleaned df.
Proof.
  intros Hwf Hreq.
  pose proof (validated_wf _ Hwf) as [Hnd _].
  pose proof (validated_columns_perm _ Hwf Hreq) as Hperm.
  pose proof (cleaned_rows_length df Hwf Hreq) as Hlen.
  assert (columns (cleaned df) = columns (validated df)) as Hcols
    by (by rewrite (cleaned_eq df Hreq)).
  assert (length (columns (validated df)) = 3) as Hthree
    by apply (Permutation_length Hperm).
  apply cleaned_fixed.
  - split; rewrite Hcols; [done|].
    eapply Forall_impl; [exact Hlen|]. intros r Hr. cbn beta. congruence.
  - unfold has_required. rewrite Hcols. by apply validated_has_required.
  - congruence.
  - intros r Hr. rewrite Hcols.
    destruct (cleaned_row_inv df r Hwf Hreq Hr) as (r0 & _ & Hr0 & ->).
    apply clean_row_again; [done..|]. congruence.
  - by apply cleaned_uni_roll_NoDup.
Qed.

Lemma X16_witness : cleaned (cleaned df_extra) = cleaned df_extra.
Proof.
  refine (X16_cleaning_a_cleaned_frame_changes_nothing df_extra _ eq_refl).
  split; apply (bool_decide_unpack _); vm_compute; exact I.
Defined.

(** ** The verification of the row count *)

Lemma step1_events_no_verification df a b :
  (Print (WarnRowCount a b) ∉ step1_events df)
  ∧ (Print WarnVerify ∉ step1_events df).
Proof.
  unfold step1_events. cbv zeta.
  destruct (bool_decide (length expected_columns < length (columns df)));
    destruct (negb (empty _));
    rewrite !not_elem_of_app, !not_elem_of_cons;
    (split; split_and!; try done; apply not_elem_of_nil).
Qed.

(** X17. On a run where the upsert went through and the count is fetched,
    the script prints the count of [students], and it prints the mismatch
    warning exactly when that count differs from the number of rows of
    the cleaned frame; it prints no other warning about the count. *)
Theorem X17_mismatch_warning_iff_counts_differ env w df staged s1 :
  read_csv env = Some df → has_required df = true →
  connect_ok env = true →
  fault env (CallExecute create_table_query) = false →
  fault env (CallExecute drop_temp_if_exists) = false →
  fault env (CallExecute create_temp) = false →
  fault env CallCopy = false →
  copy_rows (to_csv false (cleaned df)) = Some staged →
  fault env (CallExecute insert_from_temp) = false →
  insert_on_conflict [] staged (default [] (students (db w))) = Some s1 →
  fault env (CallExecute select_count) = false →
  ∃ evs, trace (run env w).2 = trace w ++ evs
    ∧ Print (Verification (length s1)) ∈ evs
    ∧ (∀ a b, Print (WarnRowCount a b) ∈ evs
              ↔ a = len (cleaned df) ∧ b = length s1
                ∧ length s1 ≠ len (cleaned df))
    ∧ Print WarnVerify ∉ evs.
Proof.
  intros Hread Hreq Hconn F1 F2 F3 F4 Hcopy F5 Hins F6.
  rewrite run_outcome. unfold outcome.
  rewrite Hread, Hreq, Hconn, F1, F2, F3, F4, Hcopy, F5, Hins, F6. cbn [negb].
  cbn [snd trace]. eexists. split; [reflexivity|].
  assert (∀ a b, Print (WarnRowCount a b) ∉ step1_events df) as Hno1
    by (intros a b; apply step1_events_no_verification).
  assert (Print WarnVerify ∉ step1_events df) as Hno2
    by apply (step1_events_no_verification df 0 0).
  split_and!.
  - rewrite !elem_of_app. right. left. left.
  - intros a b. split.
    + intros H. split_elem H; try discriminate;
        try (by apply elem_of_nil in H); try (by apply Hno1 in H);
        try (by destruct (fault env (CallExecute drop_temp))).
      case_bool_decide as Hne; [|by apply elem_of_nil in H].
      apply list_elem_of_singleton in H. injection H as -> ->. done.
    + intros (-> & -> & Hne). rewrite !elem_of_app. right. left.
      rewrite bool_decide_eq_true_2 by done. right. left.
  - intros H. split_elem H; try discriminate;
      try (by apply elem_of_nil in H); try (by apply Hno2 in H);
      try (by destruct (fault env (CallExecute drop_temp))).
    case_bool_decide; [|by apply elem_of_nil in H].
    by apply list_elem_of_singleton in H.
Qed.

Lemma X17_witness :
  ∃ evs, trace (run (mkEnv (Some df_dup) true no_fault)
                  world_with_other_row).2
         = trace world_with_other_row ++ evs
    ∧ Print (Verification 3) ∈ evs
    ∧ (∀ a b, Print (WarnRowCount a b) ∈ evs
              ↔ a = len (cleaned df_dup) ∧ b = 3
                ∧ 3 ≠ len (cleaned df_dup))
    ∧ Print WarnVerify ∉ evs.
Proof.
  refine (X17_mismatch_warning_iff_counts_differ
            (mkEnv (Some df_dup) true no_fault) world_with_other_row df_dup
            staged_dup
            (mkStudent (Some (py "Dan")) (Some (py "R9")) (Some (py "EE"))
             :: staged_dup)
            _ _ _ _ _ _ _ _ _ _ _); vm_compute; reflexivity.
Defined.

(** ** A plain file always loads *)

(** The keys the COPY stages from a cleaned frame are distinct and none
    is NULL. *)
Lemma uni_roll_student_of cols r :
  uni_roll (student_of cols r)
  = Some (cell_text (row_get cols (py "uni_roll") r)).
Proof. reflexivity. Qed.

Lemma cell_text_inj (x y : cell) s t :
  x = Str s → y = Str t → Some (cell_text x) = Some (cell_text y) → x = y.
Proof. intros -> ->. cbn [cell_text]. by intros [= ->]. Qed.

Lemma getitem_rows df c : getitem df c = row_get (columns df) c <$> rows df.
Proof. reflexivity. Qed.

Lemma cleaned_keys df :
  wf_frame df → has_required df = true →
  columns (cleaned df) = expected_columns →
  NoDup (uni_roll <$> (student_of expected_columns <$> rows (cleaned df)))
  ∧ None ∉ uni_roll <$> (student_of expected_columns <$> rows (cleaned df)).
Proof.
  intros Hwf Hreq Hcols.
  assert (uni_roll <$> (student_of expected_columns <$> rows (cleaned df))
          = (λ c, Some (cell_text c))
            <$> (row_get expected_columns (py "uni_roll")
                 <$> rows (cleaned df))) as ->.
  { rewrite <- !list_fmap_compose. apply list_fmap_ext. intros i r _.
    apply uni_roll_student_of. }
  split.
  - pose proof (cleaned_uni_roll_NoDup df Hreq) as Hnd.
    rewrite getitem_rows, Hcols in Hnd.
    apply NoDup_fmap_2_strong; [|exact Hnd].
    intros x y [r [-> Hr]]%list_elem_of_fmap [r' [-> Hr']]%list_elem_of_fmap.
    destruct (cleaned_row_source df r Hwf Hreq Hr) as (r0 & _ & _ & Hv).
    destruct (cleaned_row_source df r' Hwf Hreq Hr') as (r0' & _ & _ & Hv').
    assert ((py "uni_roll", 100) ∈ widths) as Hw
      by (unfold widths; rewrite !elem_of_cons; tauto).
    specialize (Hv _ _ Hw). specialize (Hv' _ _ Hw).
    rewrite Hcols in Hv, Hv'. by eapply cell_text_inj.
  - by intros [c [? _]]%list_elem_of_fmap.
Qed.

(** X18. A file that cannot fail: when the cells of the cleaned frame
    hold no backslash, line break or NUL, its columns are in the order of
    the table, the connection is made and none of the five calls up to the
    upsert fails in the driver, the run exits with status 0 and leaves the
    recovery file as it was, whatever [students] held before. *)
Theorem X18_plain_file_always_loads env w df :
  read_csv env = Some df → wf_frame df → has_required df = true →
  plain_frame (cleaned df) = true →
  columns (cleaned df) = expected_columns →
  connect_ok env = true →
  fault env (CallExecute create_table_query) = false →
  fault env (CallExecute drop_temp_if_exists) = false →
  fault env (CallExecute create_temp) = false →
  fault env CallCopy = false →
  fault env (CallExecute insert_from_temp) = false →
  (run env w).1 = 0
  ∧ failed_rows_csv (run env w).2 = failed_rows_csv w
  ∧ is_Some (students (db (run env w).2)).
Proof.
  intros Hread Hwf Hreq Hplain Hcols Hconn F1 F2 F3 F4 F5.
  destruct (cleaned_keys df Hwf Hreq Hcols) as [Hnd Hnone].
  destruct (insert_on_conflict_accepts []
              (student_of expected_columns <$> rows (cleaned df))
              (default [] (students (db w))) Hnd Hnone) as [s1 Hins].
  { intros k Hk. by apply elem_of_nil in Hk. }
  rewrite run_outcome. unfold outcome.
  rewrite Hread, Hreq, Hconn, F1, F2, F3, F4, F5. cbn [negb].
  rewrite (copy_rows_cleaned_ordered df Hwf Hreq Hplain Hcols), Hins.
  cbn [fst snd failed_rows_csv db students]. eauto.
Qed.

Lemma X18_witness :
  (run (mkEnv (Some df_dup) true no_fault) world_with_other_row).1 = 0
  ∧ failed_rows_csv
      (run (mkEnv (Some df_dup) true no_fault) world_with_other_row).2
    = failed_rows_csv world_with_other_row
  ∧ is_Some (students
      (db (run (mkEnv (Some df_dup) true no_fault) world_with_other_row).2)).
Proof.
  refine (X18_plain_file_always_loads
            (mkEnv (Some df_dup) true no_fault) world_with_other_row df_dup
            eq_refl _ eq_refl eq_refl eq_refl eq_refl eq_refl eq_refl eq_refl
            eq_refl eq_refl).
  split; apply (bool_decide_unpack _); vm_compute; exact I.
Defined.
